(** * Telos Core: taint-based enforcement engine and its control-plane daemon

    A shallow embedding of
    - [shared/common_maps.h]        (taint levels, [process_info_t]),
    - [telos_core/src/bpf_lsm.c]    (the three LSM hooks),
    - [telos_core/loader/main.go]   (bootstrap and the command protocol),
    followed by the properties of the engine and the daemon.

    Conventions.  A [__u32] / [uint32] is a [Z] in [0, 2^32); conversions
    that can wrap are written out with [mod].  BPF maps are finite maps
    ([gmap]) together with the capacity the source declares for them.
    Kernel helpers and the Go libraries (cilium/ebpf, encoding/json) are
    the environment: their outcomes are either computed from the modelled
    map contents (full table, missing key, full ring buffer) or given as
    inputs (decoded JSON lines, attach results). *)

From Stdlib Require Import ZArith QArith Lia.
From Stdlib Require Import Strings.Byte Strings.Ascii.
From stdpp Require Import gmap strings list fin_maps pretty.

Local Open Scope Z_scope.

(** Conversion to [__u32]: keep the low 32 bits. *)
Definition u32 (z : Z) : Z := z mod 2 ^ 32.

(** C truth value of an integer: non-zero. *)
Definition truthy (z : Z) : bool := negb (z =? 0).

(* ===================================================================== *)
(** * shared/common_maps.h *)
(* ===================================================================== *)

Module common_maps.

Definition TAINT_CLEAN    : Z := 0.
Definition TAINT_LOW      : Z := 1.
Definition TAINT_MEDIUM   : Z := 2.
Definition TAINT_HIGH     : Z := 3.
Definition TAINT_CRITICAL : Z := 4.

(** [struct process_info_t]; [comm] is the 16-byte array. *)
Record process_info_t := mk_process_info {
  pi_pid          : Z;
  pi_taint_level  : Z;
  pi_is_sandboxed : Z;
  pi_comm         : list byte
}.

(** An all-zero [char comm[16]]. *)
Definition comm_zero : list byte := replicate 16 x00.

End common_maps.
Export common_maps.

(* ===================================================================== *)
(** * telos_core/src/bpf_lsm.c *)
(* ===================================================================== *)

Module bpf_lsm.

Definition EPERM  : Z := 1.
Definition EFAULT : Z := 14.

(** The two verdicts an LSM hook can return. *)
Definition ALLOW : Z := 0.
Definition DENY  : Z := - EPERM.

(** ** Maps *)

(** [process_map]: [BPF_MAP_TYPE_HASH], key [__u32] pid. *)
Definition process_map_max_entries : Z := 4096.

Record telos_config_t := mk_config {
  max_taint_for_exec : Z;
  max_taint_for_open : Z;
  enabled            : Z
}.

(** [struct event_t].  [ev_action] is the field read as a C string:
    [emit_event] copies the first 7 bytes of the literal, and both
    literals ("execve", "open") end within those 7 bytes. *)
Record event_t := mk_event {
  ev_pid         : Z;
  ev_taint_level : Z;
  ev_blocked     : Z;
  ev_comm        : list byte;
  ev_action      : string
}.

(** [events]: [BPF_MAP_TYPE_RINGBUF] of [256 * 1024] bytes.  The ring is
    the list of records submitted and not yet consumed, oldest first. *)
Definition events_max_entries : Z := 256 * 1024.

(** [sizeof(struct event_t)]: three [__u32] and two [char[16]]. *)
Definition sizeof_event_t : Z := 3 * 4 + 16 + 16.

(** A record occupies its payload plus the 8-byte ring-buffer header,
    rounded up to a multiple of 8. *)
Definition BPF_RINGBUF_HDR_SZ : Z := 8.
Definition round_up (n a : Z) : Z := ((n + a - 1) / a) * a.
Definition event_record_len : Z :=
  round_up (sizeof_event_t + BPF_RINGBUF_HDR_SZ) 8.

Definition ringbuf_used (rb : list event_t) : Z :=
  Z.of_nat (length rb) * event_record_len.

(** [bpf_ringbuf_reserve] of one [event_t]: [true] when a
    record is handed out, [false] for the NULL the helper returns when
    the producer would run more than [size - 1] bytes ahead of the
    consumer. *)
Definition bpf_ringbuf_reserve (rb : list event_t) : bool :=
  ringbuf_used rb + event_record_len <=? events_max_entries - 1.

(** ** What a hook sees of the calling task *)

(** [current->real_parent->tgid], a [pid_t]. *)
Record task_struct := mk_task { real_parent_tgid : Z }.

Record hook_ctx := mk_ctx {
  pid_tgid     : Z;                  (* bpf_get_current_pid_tgid(), a u64 *)
  current_comm : list byte;          (* bpf_get_current_comm() *)
  current_task : option task_struct  (* bpf_get_current_task() *)
}.

(** [__u32 pid = bpf_get_current_pid_tgid() >> 32;] *)
Definition current_pid (ctx : hook_ctx) : Z := u32 (Z.shiftr (pid_tgid ctx) 32).

(** [__u32 ppid = BPF_CORE_READ(current_task, real_parent, tgid);] *)
Definition parent_pid (t : task_struct) : Z := u32 (real_parent_tgid t).

(** ** Helper functions *)

Definition get_config (config_map : gmap Z telos_config_t)
  : option telos_config_t :=
  config_map !! 0.

Definition emit_event (ctx : hook_ctx) (events : list event_t)
    (pid taint blocked : Z) (action : string) : list event_t :=
  if bpf_ringbuf_reserve events then
    events ++ [ {| ev_pid := pid; ev_taint_level := taint;
                   ev_blocked := blocked; ev_comm := current_comm ctx;
                   ev_action := action |} ]
  else events.

(** ** Hook: bprm_check_security *)

Definition telos_check_exec (ctx : hook_ctx)
    (process_map : gmap Z process_info_t)
    (config_map : gmap Z telos_config_t)
    (events : list event_t) : Z * list event_t :=
  let pid := current_pid ctx in
  let config := get_config config_map in
  let max_taint :=
    match config with Some c => max_taint_for_exec c | None => TAINT_MEDIUM end in
  let enforce :=
    match config with Some c => enabled c | None => 1 end in
  let effective_taint :=
    match process_map !! pid with
    | Some info => pi_taint_level info
    | None =>
        match current_task ctx with
        | Some current =>
            match process_map !! parent_pid current with
            | Some parent_info => pi_taint_level parent_info
            | None => TAINT_CLEAN
            end
        | None => TAINT_CLEAN
        end
    end in
  if effective_taint >? max_taint then
    let events' := emit_event ctx events pid effective_taint 1 "execve" in
    if truthy enforce then (- EPERM, events') else (0, events')
  else (0, events).

(** ** Hook: file_open *)

(** [file->f_path.dentry] may be NULL; [d_name.name] is a C string, or
    unreadable ([None]) when the probe read faults. *)
Record dentry := mk_dentry { d_name : option string }.
Record file := mk_file { f_path_dentry : option dentry }.

(** The bytes of a C string: everything before the first NUL. *)
Fixpoint c_string (s : string) : list byte :=
  match s with
  | EmptyString => []
  | String a s' =>
      if Ascii.eqb a Ascii.zero then [] else Ascii.byte_of_ascii a :: c_string s'
  end.

(** [bpf_probe_read_kernel_str(dst, size, src)]: at most [size - 1] bytes
    of the string and a terminating NUL are written to the front of
    [dst]; the bytes of [dst] behind them keep their old contents.  The
    result is the length written, or a negative error (with [dst]
    zeroed) when the source cannot be read.  A buffer is a function from
    index to byte. *)
Definition bpf_probe_read_kernel_str (dst : nat -> byte) (size : nat)
    (src : option string) : Z * (nat -> byte) :=
  match src with
  | None => (- EFAULT, fun _ => x00)
  | Some s =>
      let out := take (size - 1) (c_string s) ++ [x00] in
      (Z.of_nat (length out),
       fun i => match out !! i with Some b => b | None => dst i end)
  end.

(** [filename0] is what the stack slot of [char filename[32]] held before
    the call: the array is not initialised. *)
Definition telos_check_file (ctx : hook_ctx) (f : file)
    (filename0 : nat -> byte)
    (process_map : gmap Z process_info_t)
    (config_map : gmap Z telos_config_t)
    (events : list event_t) : Z * list event_t :=
  let pid := current_pid ctx in
  match process_map !! pid with
  | None => (0, events)
  | Some info =>
      let config := get_config config_map in
      let max_taint :=
        match config with Some c => max_taint_for_open c | None => TAINT_HIGH end in
      let enforce :=
        match config with Some c => enabled c | None => 1 end in
      if pi_taint_level info >=? TAINT_CRITICAL then
        match f_path_dentry f with
        | None => (0, events)
        | Some d =>
            let '(ret, filename) :=
              bpf_probe_read_kernel_str filename0 32 (d_name d) in
            if ret <? 0 then (0, events)
            else if Byte.eqb (filename 0%nat) "i" &&
                    Byte.eqb (filename 1%nat) "d" &&
                    Byte.eqb (filename 2%nat) "_" then
              let events' :=
                emit_event ctx events pid (pi_taint_level info) 1 "open" in
              if truthy enforce then (- EPERM, events') else (0, events')
            else (0, events)
        end
      else (0, events)
  end.

(** ** Hook: task_alloc *)

Definition telos_task_alloc (ctx : hook_ctx)
    (process_map : gmap Z process_info_t) : Z :=
  let parent_pid := current_pid ctx in
  match process_map !! parent_pid with
  | None => 0
  | Some parent_info => 0
  end.

(** ** The gates in the words of the specification *)

(** The effective taint of the pre-execution gate: the caller's own
    entry, else the parent's entry, else CLEAN. *)
Inductive spec_effective_taint (ctx : hook_ctx)
    (process_map : gmap Z process_info_t) : Z -> Prop :=
| taint_direct info :
    process_map !! current_pid ctx = Some info ->
    spec_effective_taint ctx process_map (pi_taint_level info)
| taint_parent t parent_info :
    process_map !! current_pid ctx = None ->
    current_task ctx = Some t ->
    process_map !! parent_pid t = Some parent_info ->
    spec_effective_taint ctx process_map (pi_taint_level parent_info)
| taint_default :
    process_map !! current_pid ctx = None ->
    (forall t, current_task ctx = Some t ->
               process_map !! parent_pid t = None) ->
    spec_effective_taint ctx process_map TAINT_CLEAN.

(** The exec threshold: [Config.max_taint_for_exec], MEDIUM without a
    Config. *)
Definition spec_exec_threshold (config_map : gmap Z telos_config_t) : Z :=
  match config_map !! 0 with
  | Some c => max_taint_for_exec c
  | None => TAINT_MEDIUM
  end.

(** Enforcement is enabled when [Config.enabled] is set; it is enabled
    without a Config. *)
Definition spec_enforcing (config_map : gmap Z telos_config_t) : bool :=
  match config_map !! 0 with
  | Some c => bool_decide (enabled c <> 0)
  | None => true
  end.

(** The test the file-open gate applies to the bytes it has read. *)
Definition name_check (filename : nat -> byte) : bool :=
  Byte.eqb (filename 0%nat) "i" && Byte.eqb (filename 1%nat) "d" &&
  Byte.eqb (filename 2%nat) "_".

(** The name of the opened file, when the file has a dentry whose name
    can be read. *)
Definition file_name (f : file) : option string :=
  match f_path_dentry f with
  | Some d => d_name d
  | None => None
  end.

(** The fields of a Config hold [__u32] values. *)
Definition config_u32 (c : telos_config_t) : Prop :=
  0 <= max_taint_for_exec c < 2 ^ 32 /\
  0 <= max_taint_for_open c < 2 ^ 32 /\
  0 <= enabled c < 2 ^ 32.

(** The event channel can take one more record. *)
Definition ringbuf_has_room (events : list event_t) : Prop :=
  ringbuf_used events + event_record_len <= events_max_entries - 1.

(** The records pending in the event channel fit its size. *)
Definition ringbuf_within_capacity (events : list event_t) : Prop :=
  ringbuf_used events <= events_max_entries - 1.

(** The event a gate appends for the calling task. *)
Definition blocked_event (ctx : hook_ctx) (taint : Z) (action : string)
  : event_t :=
  {| ev_pid := current_pid ctx; ev_taint_level := taint; ev_blocked := 1;
     ev_comm := current_comm ctx; ev_action := action |}.

(** ** Sample inputs *)

(** A single-threaded task [pid] (thread id = tgid) whose parent is
    [ppid]. *)
Definition task_ctx (pid ppid : Z) : hook_ctx :=
  {| pid_tgid := Z.lor (Z.shiftl pid 32) pid;
     current_comm := comm_zero;
     current_task := Some {| real_parent_tgid := ppid |} |}.

Definition tracked (pid taint : Z) : gmap Z process_info_t :=
  {[ pid := {| pi_pid := pid; pi_taint_level := taint;
               pi_is_sandboxed := 0; pi_comm := comm_zero |} ]}.

Definition config_of (max_exec max_open en : Z) : gmap Z telos_config_t :=
  {[ 0 := {| max_taint_for_exec := max_exec;
             max_taint_for_open := max_open; enabled := en |} ]}.

Definition named_file (name : string) : file :=
  {| f_path_dentry := Some {| d_name := Some name |} |}.

(** A channel nobody drains: 4681 pending records of 56 bytes leave no
    room for another one in 256 KB. *)
Definition full_ring : list event_t :=
  replicate 4681 {| ev_pid := 1; ev_taint_level := TAINT_HIGH;
                    ev_blocked := 1; ev_comm := comm_zero;
                    ev_action := "execve" |}.

End bpf_lsm.

(* ===================================================================== *)
(** * telos_core/loader/main.go *)
(* ===================================================================== *)

Module loader.

(** Taint levels (must match common_maps.h). *)
Definition TaintClean    : Z := 0.
Definition TaintLow      : Z := 1.
Definition TaintMedium   : Z := 2.
Definition TaintHigh     : Z := 3.
Definition TaintCritical : Z := 4.

(** [ProcessInfo] and [Config] have the layout of the BPF structs; a
    value written by the daemon is the value the hooks read. *)
Abbreviation ProcessInfo := process_info_t (only parsing).
Abbreviation Config := bpf_lsm.telos_config_t (only parsing).

(** ** Messages *)

(** What [encoding/json] stores in an [interface{}]: a JSON number is a
    [float64], here the rational it denotes. *)
#[local] Set Warnings "-register-all".

Inductive json :=
| JNull
| JBool (b : bool)
| JNumber (f : Q)
| JString (s : string)
| JArray (l : list json)
| JObject (kv : list (string * json)).

Record IPCCommand := mk_command {
  Command : string;
  Data    : gmap string json
}.

(** The entry of a process in the GET_STATE snapshot. *)
Record process_state := mk_process_state {
  st_taint_level : Z;
  st_sandboxed   : Z
}.

(** The values the handlers put in [IPCResponse.Data]: the string of
    PING, or the map with the keys "processes" and "count". *)
Inductive response_data :=
| DataString (s : string)
| DataState (processes : gmap Z process_state) (count : Z).

Record IPCResponse := mk_response {
  Success  : bool;
  Error    : string;
  RespData : option response_data
}.

(** The type assertions [v.(float64)] and [v.(string)] on a map entry;
    a missing key yields nil, which fails both. *)
Definition as_float64 (v : option json) : option Q :=
  match v with Some (JNumber f) => Some f | _ => None end.

Definition as_string (v : option json) : option string :=
  match v with Some (JString s) => Some s | _ => None end.

(** ** Daemon state *)

Record BPFMaps := mk_maps {
  ProcessMap : gmap Z ProcessInfo;
  ConfigMap  : gmap Z Config;
  Events     : list bpf_lsm.event_t
}.

(** Links to the LSM hooks: [true] for an attached link, [false] for
    nil. *)
Record BPFLinks := mk_links {
  CheckExec : bool;
  CheckFile : bool;
  TaskAlloc : bool
}.

(** [maps] is nil until [loadBPF] stores the maps of the collection it
    has just created, and no method reads it before; the nil pointer is
    represented by empty maps.  [listener] tells whether the command
    socket is open.  [log] is what the daemon has written with the [log]
    package, oldest line first. *)
Record TelosDaemon := mk_daemon {
  maps     : BPFMaps;
  links    : BPFLinks;
  listener : bool;
  log      : list string
}.

Definition NewTelosDaemon : TelosDaemon :=
  {| maps := {| ProcessMap := ∅; ConfigMap := ∅; Events := [] |};
     links := {| CheckExec := false; CheckFile := false; TaskAlloc := false |};
     listener := false;
     log := [] |}.

Definition set_ProcessMap (d : TelosDaemon) (m : gmap Z ProcessInfo)
  : TelosDaemon :=
  {| maps := {| ProcessMap := m; ConfigMap := ConfigMap (maps d);
                Events := Events (maps d) |};
     links := links d; listener := listener d; log := log d |}.

Definition set_ConfigMap (d : TelosDaemon) (m : gmap Z Config)
  : TelosDaemon :=
  {| maps := {| ProcessMap := ProcessMap (maps d); ConfigMap := m;
                Events := Events (maps d) |};
     links := links d; listener := listener d; log := log d |}.

Definition set_maps (d : TelosDaemon) (ms : BPFMaps) : TelosDaemon :=
  {| maps := ms; links := links d; listener := listener d; log := log d |}.

Definition set_links (d : TelosDaemon) (l : BPFLinks) : TelosDaemon :=
  {| maps := maps d; links := l; listener := listener d; log := log d |}.

Definition set_listener (d : TelosDaemon) (b : bool) : TelosDaemon :=
  {| maps := maps d; links := links d; listener := b; log := log d |}.

(** [log.Println] / [log.Printf]. *)
Definition log_line (d : TelosDaemon) (line : string) : TelosDaemon :=
  {| maps := maps d; links := links d; listener := listener d;
     log := log d ++ [line] |}.

(** ** The tables as [ebpf.Map] presents them *)

(** The errors of [Put] and [Delete]: the key is not in the table, or
    the table has no free slot for a new key. *)
Inductive map_error := ErrKeyNotExist | ErrMapFull.

(** [Put] on a hash table of [max_entries] slots: an existing key is
    overwritten, a new key needs a free slot. *)
Definition Put {V} (max_entries : Z) (m : gmap Z V) (key : Z) (value : V)
  : map_error + gmap Z V :=
  match m !! key with
  | Some _ => inr (<[key := value]> m)
  | None =>
      if Z.of_nat (size m) <? max_entries then inr (<[key := value]> m)
      else inl ErrMapFull
  end.

(** [Delete] on a hash table: an error when the key is not there. *)
Definition Delete {V} (m : gmap Z V) (key : Z) : map_error + gmap Z V :=
  match m !! key with
  | Some _ => inr (delete key m)
  | None => inl ErrKeyNotExist
  end.

(** [Put] on an array of [max_entries] slots: every index below
    [max_entries] can be written. *)
Definition PutArray {V} (max_entries : Z) (m : gmap Z V) (key : Z) (value : V)
  : map_error + gmap Z V :=
  if (0 <=? key) && (key <? max_entries) then inr (<[key := value]> m)
  else inl ErrMapFull.

(** [copy(dst, src)]: the first [min (len dst) (len src)] bytes of [dst]
    are replaced. *)
Definition copy (dst src : list byte) : list byte :=
  take (length dst) src ++ drop (length src) dst.

Definition failure (msg : string) : IPCResponse :=
  {| Success := false; Error := msg; RespData := None |}.

Definition success : IPCResponse :=
  {| Success := true; Error := ""; RespData := None |}.

(** ** Bootstrap: the environment and a state-and-error monad *)

(** What the daemon meets when it starts.  An [option string] is a Go
    [error]: [None] for nil, [Some text] for an error with that text. *)
Record boot_env := mk_env {
  socketPath         : string;            (* --socket *)
  Geteuid            : Z;                 (* os.Geteuid() *)
  RemoveMemlock      : option string;     (* rlimit.RemoveMemlock() *)
  MkdirAll           : option string;     (* os.MkdirAll(bpfPinPath, 0755) *)
  LoadCollectionSpec : option string;     (* ebpf.LoadCollectionSpec *)
  NewCollection      : option string;     (* ebpf.NewCollection *)
  Pin                : option string;     (* ProcessMap.Pin *)
  Programs           : string -> bool;    (* coll.Programs[name] != nil *)
  AttachLSM          : string -> option string;  (* link.AttachLSM, by program *)
  ConfigPut          : option string;     (* d.maps.ConfigMap.Put(key, config) *)
  Listen             : option string      (* net.Listen("unix", socketPath) *)
}.

(** A method of the daemon that returns an [error]: it runs on the daemon
    state and yields the error text or a result. *)
Definition M (A : Type) : Type := TelosDaemon -> (string + A) * TelosDaemon.

Definition ret {A} (a : A) : M A := fun d => (inr a, d).

Definition fail {A} (err : string) : M A := fun d => (inl err, d).

Definition bind {A B} (c : M A) (k : A -> M B) : M B :=
  fun d =>
    match c d with
    | (inl err, d') => (inl err, d')
    | (inr a, d') => k a d'
    end.

Notation "c1 >> c2" := (bind c1 (fun _ => c2))
  (at level 100, right associativity).

Definition modify (f : TelosDaemon -> TelosDaemon) : M unit :=
  fun d => (inr tt, f d).

Definition println (line : string) : M unit :=
  modify (fun d => log_line d line).

(** [if err := step; err != nil { return fmt.Errorf("context: %w", err) }] *)
Definition wrap {A} (context : string) (c : M A) : M A :=
  fun d =>
    match c d with
    | (inl err, d') => (inl (context +:+ ": " +:+ err), d')
    | r => r
    end.

Definition step (outcome : option string) : M unit :=
  match outcome with
  | Some err => fail err
  | None => ret tt
  end.

(** The tables of a collection that has just been loaded: an empty hash
    table, a zeroed one-slot array, an empty ring. *)
Definition fresh_maps : BPFMaps :=
  {| ProcessMap := ∅;
     ConfigMap := {[ 0 := {| bpf_lsm.max_taint_for_exec := 0;
                             bpf_lsm.max_taint_for_open := 0;
                             bpf_lsm.enabled := 0 |} ]};
     Events := [] |}.

(** How the process in [main] ends up: terminated by [log.Fatal], or
    blocked in [select {}] with the daemon serving. *)
Inductive outcome := Fatal (msg : string) | Running.

Section Daemon.

(** [uint32(f)] for a [float64] whose integer part does not fit is
    implementation-dependent in Go; [overflow f] stands for whatever
    the platform yields. *)
Variable overflow : Q -> Z.

(** [err.Error()] of a table error. *)
Variable error_text : map_error -> string.

(** The conversion [uint32(f)]: the fraction is discarded. *)
Definition uint32 (f : Q) : Z :=
  let t := Z.quot (Qnum f) (Z.pos (Qden f)) in
  if (0 <=? t) && (t <? 2 ^ 32) then t else u32 (overflow f).

(** ** Command handlers *)

Definition cmdUpdateTaint (data : gmap string json) (d : TelosDaemon)
  : IPCResponse * TelosDaemon :=
  match as_float64 (data !! "pid") with
  | None => (failure "Missing or invalid 'pid'", d)
  | Some pidFloat =>
      let pid := uint32 pidFloat in
      match as_float64 (data !! "taint_level") with
      | None => (failure "Missing or invalid 'taint_level'", d)
      | Some levelFloat =>
          let level := uint32 levelFloat in
          let info := {| pi_pid := pid; pi_taint_level := level;
                         pi_is_sandboxed := 0; pi_comm := comm_zero |} in
          match Put bpf_lsm.process_map_max_entries
                    (ProcessMap (maps d)) pid info with
          | inl err => (failure (error_text err), d)
          | inr m =>
              (success,
               log_line (set_ProcessMap d m)
                 ("[UPDATE] PID " +:+ pretty pid +:+ " taint -> "
                    +:+ pretty level))
          end
      end
  end.

Definition cmdClearTaint (data : gmap string json) (d : TelosDaemon)
  : IPCResponse * TelosDaemon :=
  match as_float64 (data !! "pid") with
  | None => (failure "Missing or invalid 'pid'", d)
  | Some pidFloat =>
      let pid := uint32 pidFloat in
      match Delete (ProcessMap (maps d)) pid with
      | inl err =>
          (success,
           log_line d ("[CLEAR] PID " +:+ pretty pid +:+ " (was not tracked)"))
      | inr m =>
          (success,
           log_line (set_ProcessMap d m)
             ("[CLEAR] PID " +:+ pretty pid +:+ " taint cleared"))
      end
  end.

Definition cmdRegisterAgent (data : gmap string json) (d : TelosDaemon)
  : IPCResponse * TelosDaemon :=
  match as_float64 (data !! "pid") with
  | None => (failure "Missing or invalid 'pid'", d)
  | Some pidFloat =>
      let pid := uint32 pidFloat in
      let comm := default "" (as_string (data !! "comm")) in
      let info_Comm :=
        if String.eqb comm "" then comm_zero
        else copy comm_zero (String.list_byte_of_string comm) in
      let info := {| pi_pid := pid; pi_taint_level := TaintClean;
                     pi_is_sandboxed := 0; pi_comm := info_Comm |} in
      match Put bpf_lsm.process_map_max_entries
                (ProcessMap (maps d)) pid info with
      | inl err => (failure (error_text err), d)
      | inr m =>
          (success,
           log_line (set_ProcessMap d m)
             ("[REGISTER] Agent PID " +:+ pretty pid +:+ " (" +:+ comm
                +:+ ")"))
      end
  end.

Definition cmdGetState (d : TelosDaemon) : IPCResponse * TelosDaemon :=
  let processes :=
    (fun value => {| st_taint_level := pi_taint_level value;
                     st_sandboxed := pi_is_sandboxed value |})
      <$> ProcessMap (maps d) in
  ({| Success := true; Error := "";
      RespData := Some (DataState processes (Z.of_nat (size processes))) |},
   d).

(** [handleCommand] dispatches on the command name. *)
Definition handleCommand (cmd : IPCCommand) (d : TelosDaemon)
  : IPCResponse * TelosDaemon :=
  if String.eqb (Command cmd) "PING" then
    ({| Success := true; Error := ""; RespData := Some (DataString "pong") |},
     d)
  else if String.eqb (Command cmd) "UPDATE_TAINT" then
    cmdUpdateTaint (Data cmd) d
  else if String.eqb (Command cmd) "CLEAR_TAINT" then
    cmdClearTaint (Data cmd) d
  else if String.eqb (Command cmd) "REGISTER_AGENT" then
    cmdRegisterAgent (Data cmd) d
  else if String.eqb (Command cmd) "GET_STATE" then
    cmdGetState d
  else
    (failure ("Unknown command: " +:+ Command cmd), d).

(** [handleConnection] on the lines a client sends before it closes
    the connection.  Each line is given by what [json.Unmarshal] makes
    of it: the text of the decoding error, or the decoded command.
    The result lists the responses written to the connection, in
    order. *)
Fixpoint handleConnection (lines : list (string + IPCCommand))
    (d : TelosDaemon) : list IPCResponse * TelosDaemon :=
  match lines with
  | [] => ([], d)
  | inl err :: rest =>
      let '(resps, d') := handleConnection rest d in
      (failure ("Invalid JSON: " +:+ err) :: resps, d')
  | inr cmd :: rest =>
      let '(resp, d1) := handleCommand cmd d in
      let '(resps, d') := handleConnection rest d1 in
      (resp :: resps, d')
  end.

(** ** Bootstrap *)

(** [loadBPF] loads the compiled eBPF object and attaches the hooks. *)
Definition loadBPF (env : boot_env) : M unit :=
  wrap "load collection spec" (step (LoadCollectionSpec env)) >>
  wrap "new collection" (step (NewCollection env)) >>
  modify (fun d => set_maps d fresh_maps) >>
  match Pin env with
  | Some err => println ("Warning: Failed to pin process_map: " +:+ err)
  | None => ret tt
  end >>
  modify (fun d => set_links d (mk_links false false false)) >>
  (if Programs env "telos_check_exec" then
     match AttachLSM env "telos_check_exec" with
     | Some err => fail ("attach check_exec: " +:+ err)
     | None =>
         modify (fun d => set_links d
                   (mk_links true (CheckFile (links d)) (TaskAlloc (links d)))) >>
         println "  → Attached lsm/bprm_check_security"
     end
   else ret tt) >>
  (if Programs env "telos_check_file" then
     match AttachLSM env "telos_check_file" with
     | Some err => println ("Warning: Failed to attach check_file: " +:+ err)
     | None =>
         modify (fun d => set_links d
                   (mk_links (CheckExec (links d)) true (TaskAlloc (links d)))) >>
         println "  → Attached lsm/file_open"
     end
   else ret tt) >>
  (if Programs env "telos_task_alloc" then
     match AttachLSM env "telos_task_alloc" with
     | Some err => println ("Warning: Failed to attach task_alloc: " +:+ err)
     | None =>
         modify (fun d => set_links d
                   (mk_links (CheckExec (links d)) (CheckFile (links d)) true)) >>
         println "  → Attached lsm/task_alloc"
     end
   else ret tt) >>
  ret tt.

(** [initConfig] sets the default configuration.  [Start] calls it once
    [loadBPF] has stored the maps.  The write fails when the environment
    refuses it; otherwise slot 0 of the one-slot array is written. *)
Definition initConfig (env : boot_env) : M unit :=
  fun d =>
    let config := {| bpf_lsm.max_taint_for_exec := TaintMedium;
                     bpf_lsm.max_taint_for_open := TaintHigh;
                     bpf_lsm.enabled := 1 |} in
    match ConfigPut env with
    | Some err => (inl err, d)
    | None =>
        match PutArray 1 (ConfigMap (maps d)) 0 config with
        | inl err => (inl (error_text err), d)
        | inr m => (inr tt, set_ConfigMap d m)
        end
    end.

(** [startSocketServer] opens the listener and starts accepting. *)
Definition startSocketServer (env : boot_env) : M unit :=
  step (Listen env) >>
  modify (fun d => set_listener d true).

(** [Start] loads BPF and starts the socket server. *)
Definition Start (env : boot_env) : M unit :=
  wrap "failed to remove memlock" (step (RemoveMemlock env)) >>
  println "✓ Removed memory lock limits" >>
  wrap "failed to create BPF pin path" (step (MkdirAll env)) >>
  wrap "failed to load BPF" (loadBPF env) >>
  println "✓ eBPF program loaded and attached" >>
  wrap "failed to init config" (initConfig env) >>
  println "✓ Default config initialized" >>
  wrap "failed to start socket server" (startSocketServer env) >>
  println ("✓ Listening on " +:+ socketPath env) >>
  ret tt.

Definition main (env : boot_env) : outcome * TelosDaemon :=
  if negb (Geteuid env =? 0) then
    (Fatal "Telos Core requires root privileges to load eBPF", NewTelosDaemon)
  else
    match Start env NewTelosDaemon with
    | (inl err, d) => (Fatal ("Failed to start: " +:+ err), d)
    | (inr _, d) => (Running, d)
    end.

End Daemon.

(** ** The commands of the protocol, as a client sends them *)

Definition PING : IPCCommand :=
  {| Command := "PING"; Data := ∅ |}.

Definition UPDATE_TAINT (pid taint_level : Q) : IPCCommand :=
  {| Command := "UPDATE_TAINT";
     Data := {[ "pid" := JNumber pid; "taint_level" := JNumber taint_level ]} |}.

Definition CLEAR_TAINT (pid : Q) : IPCCommand :=
  {| Command := "CLEAR_TAINT"; Data := {[ "pid" := JNumber pid ]} |}.

Definition REGISTER_AGENT (pid : Q) (comm : string) : IPCCommand :=
  {| Command := "REGISTER_AGENT";
     Data := {[ "pid" := JNumber pid; "comm" := JString comm ]} |}.

Definition GET_STATE : IPCCommand :=
  {| Command := "GET_STATE"; Data := ∅ |}.

Definition supported_commands : list string :=
  ["PING"; "UPDATE_TAINT"; "CLEAR_TAINT"; "REGISTER_AGENT"; "GET_STATE"].

(** ** What a command can do to the daemon *)

(** The process table respects its declaration: at most
    [process_map_max_entries] entries, each stored under its own pid, with
    [__u32] fields and a 16-byte comm. *)
Definition table_wf (m : gmap Z ProcessInfo) : Prop :=
  Z.of_nat (size m) <= bpf_lsm.process_map_max_entries /\
  forall k info, m !! k = Some info ->
    pi_pid info = k /\
    0 <= k < 2 ^ 32 /\
    0 <= pi_taint_level info < 2 ^ 32 /\
    0 <= pi_is_sandboxed info < 2 ^ 32 /\
    length (pi_comm info) = 16%nat.

(** [command_effect pid d d']: [d'] is [d] after one command whose "pid"
    field converts to [pid] (if it has one).  Nothing changes, or a line
    is logged, or in addition the entry of [pid] is written by a
    successful [Put] or removed. *)
Inductive command_effect (pid : option Z) (d d' : TelosDaemon) : Prop :=
| effect_none :
    d' = d -> command_effect pid d d'
| effect_log line :
    d' = log_line d line -> command_effect pid d d'
| effect_put k info m' line :
    pid = Some k ->
    Put bpf_lsm.process_map_max_entries (ProcessMap (maps d)) k info = inr m' ->
    pi_pid info = k ->
    0 <= k < 2 ^ 32 ->
    0 <= pi_taint_level info < 2 ^ 32 ->
    pi_is_sandboxed info = 0 ->
    length (pi_comm info) = 16%nat ->
    d' = log_line (set_ProcessMap d m') line ->
    command_effect pid d d'
| effect_delete k line :
    pid = Some k ->
    d' = log_line (set_ProcessMap d (delete k (ProcessMap (maps d)))) line ->
    command_effect pid d d'.

(** [attaches env name]: the collection has the program [name] and
    attaching it succeeds. *)
Definition attaches (env : boot_env) (name : string) : bool :=
  Programs env name &&
  match AttachLSM env name with None => true | Some _ => false end.

(** ** Malformed messages *)








(** ** Sample inputs *)

(** A platform: out-of-range conversions yield 0, and table errors read
    as follows. *)
Definition sample_overflow : Q -> Z := fun _ => 0.

Definition sample_error_text (err : map_error) : string :=
  match err with
  | ErrKeyNotExist => "delete: key does not exist"
  | ErrMapFull => "update: key too big for map: argument list too long"
  end.

(** A daemon whose process table tracks pids 0 .. 4095: no slot is free
    for another pid. *)
Definition full_table : gmap Z ProcessInfo :=
  list_to_map
    ((fun pid => (pid, mk_process_info pid TaintLow 0 comm_zero))
       <$> seqZ 0 4096).

Definition full_daemon : TelosDaemon :=
  set_ProcessMap NewTelosDaemon full_table.

(** A daemon that tracks the sandboxed agent 100, "agent". *)
Definition agent_daemon : TelosDaemon :=
  set_ProcessMap NewTelosDaemon
    {[ 100 := mk_process_info 100 TaintClean 1
                (copy comm_zero (String.list_byte_of_string "agent")) ]}.


(** A start as root where every step succeeds, except the attachments
    listed in [failing]. *)
Definition boot (failing : list string) : boot_env :=
  {| socketPath := "/var/run/telos.sock";
     Geteuid := 0;
     RemoveMemlock := None;
     MkdirAll := None;
     LoadCollectionSpec := None;
     NewCollection := None;
     Pin := None;
     Programs := fun _ => true;
     AttachLSM := fun name =>
       if bool_decide (name ∈ failing) then Some "operation not permitted"
       else None;
     ConfigPut := None;
     Listen := None |}.

(** The daemon after a start where every step succeeds. *)
Definition started_daemon : TelosDaemon :=
  snd (main sample_error_text (boot [])).

(** A started daemon whose process table tracks pids 1000 .. 5095: it is
    full and does not track pid 100. *)
Definition crowded_table : gmap Z ProcessInfo :=
  list_to_map
    ((fun pid => (pid, mk_process_info pid TaintLow 0 comm_zero))
       <$> seqZ 1000 4096).

Definition crowded_daemon : TelosDaemon :=
  set_ProcessMap started_daemon crowded_table.


End loader.

(* ===================================================================== *)
(** * Properties of the enforcement engine *)
(* ===================================================================== *)

Import bpf_lsm.

Lemma u32_range z : 0 <= u32 z < 2 ^ 32.
Proof. unfold u32. apply Z.mod_pos_bound. lia. Qed.

Lemma u32_small z : 0 <= z < 2 ^ 32 -> u32 z = z.
Proof. intros H. unfold u32. now apply Z.mod_small. Qed.

Lemma truthy_spec z : truthy z = bool_decide (z <> 0).
Proof.
  unfold truthy. destruct (Z.eqb_spec z 0) as [->|Hz]; cbn [negb]; symmetry.
  - apply bool_decide_eq_false_2. intros H. now apply H.
  - now apply bool_decide_eq_true_2.
Qed.

Lemma reserve_has_room events :
  bpf_ringbuf_reserve events = true <-> ringbuf_has_room events.
Proof. unfold bpf_ringbuf_reserve, ringbuf_has_room. apply Z.leb_le. Qed.

Lemma emit_event_room ctx events pid taint blocked action :
  ringbuf_has_room events ->
  emit_event ctx events pid taint blocked action =
  events ++ [mk_event pid taint blocked (current_comm ctx) action].
Proof.
  intros H. unfold emit_event. apply reserve_has_room in H. now rewrite H.
Qed.

Lemma emit_event_full ctx events pid taint blocked action :
  ~ ringbuf_has_room events ->
  emit_event ctx events pid taint blocked action = events.
Proof.
  intros H. unfold emit_event.
  destruct (bpf_ringbuf_reserve events) eqn:E; [|reflexivity].
  apply reserve_has_room in E. contradiction.
Qed.

(** The resolver of the specification is a function: the three cases are
    exhaustive and exclusive. *)
Lemma spec_effective_taint_total ctx m : exists t, spec_effective_taint ctx m t.
Proof.
  destruct (m !! current_pid ctx) as [info|] eqn:Hself.
  - eexists. apply taint_direct. exact Hself.
  - destruct (current_task ctx) as [t|] eqn:Htask.
    + destruct (m !! parent_pid t) as [pinfo|] eqn:Hpar.
      * eexists. eapply taint_parent; eassumption.
      * eexists. apply taint_default; [assumption|].
        intros t' Ht'. rewrite Htask in Ht'. injection Ht' as <-. assumption.
    + eexists. apply taint_default; [assumption|].
      intros t' Ht'. rewrite Htask in Ht'. discriminate.
Qed.

Lemma spec_effective_taint_fun ctx m t1 t2 :
  spec_effective_taint ctx m t1 -> spec_effective_taint ctx m t2 -> t1 = t2.
Proof.
  intros H1 H2.
  destruct H1 as [i1 Ha|ta pa Ha Hb Hc|Ha Hb];
    destruct H2 as [i2 Ha'|tb pb Ha' Hb' Hc'|Ha' Hb']; try congruence.
  - rewrite (Hb' ta Hb) in Hc. discriminate.
  - rewrite (Hb tb Hb') in Hc'. discriminate.
Qed.

(** The hook computes the effective taint of the specification. *)
Lemma telos_check_exec_unfold ctx m cfgs rb eff :
  spec_effective_taint ctx m eff ->
  telos_check_exec ctx m cfgs rb =
  if eff >? spec_exec_threshold cfgs then
    (if spec_enforcing cfgs then DENY else ALLOW,
     emit_event ctx rb (current_pid ctx) eff 1 "execve")
  else (ALLOW, rb).
Proof.
  intros Heff.
  unfold telos_check_exec, spec_exec_threshold, spec_enforcing, get_config,
    DENY, ALLOW.
  assert (Hres :
    match m !! current_pid ctx with
    | Some info => pi_taint_level info
    | None =>
        match current_task ctx with
        | Some current =>
            match m !! parent_pid current with
            | Some parent_info => pi_taint_level parent_info
            | None => TAINT_CLEAN
            end
        | None => TAINT_CLEAN
        end
    end = eff).
  { destruct Heff as [info Ha|t pinfo Ha Hb Hc|Ha Hb].
    - rewrite Ha. reflexivity.
    - rewrite Ha, Hb, Hc. reflexivity.
    - rewrite Ha. destruct (current_task ctx) as [t|]; [|reflexivity].
      rewrite (Hb t eq_refl). reflexivity. }
  rewrite Hres.
  destruct (cfgs !! 0) as [c|]; cbn beta iota.
  - rewrite truthy_spec.
    destruct (eff >? max_taint_for_exec c); [|reflexivity].
    destruct (bool_decide (enabled c <> 0)); reflexivity.
  - destruct (eff >? TAINT_MEDIUM); reflexivity.
Qed.

(** C1 (as the code has it).  The effective taint is the caller's entry,
    else the parent's entry, else CLEAN.  When it exceeds the exec
    threshold ([max_taint_for_exec], MEDIUM without a Config), the verdict
    is DENY under enforcement and ALLOW in audit-only mode, and exactly one
    event with [blocked = 1] and action "execve" is appended to the event
    channel provided the channel has room for it; on a full channel the
    event is dropped and the channel is unchanged.  When the threshold is
    not exceeded the verdict is ALLOW and no event is appended. *)
Theorem telos_check_exec_gate ctx m cfgs rb eff :
  spec_effective_taint ctx m eff ->
  (eff > spec_exec_threshold cfgs ->
     fst (telos_check_exec ctx m cfgs rb)
       = (if spec_enforcing cfgs then DENY else ALLOW) /\
     (ringbuf_has_room rb ->
        snd (telos_check_exec ctx m cfgs rb)
          = rb ++ [blocked_event ctx eff "execve"]) /\
     (~ ringbuf_has_room rb -> snd (telos_check_exec ctx m cfgs rb) = rb)) /\
  (eff <= spec_exec_threshold cfgs ->
     telos_check_exec ctx m cfgs rb = (ALLOW, rb)).
Proof.
  intros Heff. rewrite (telos_check_exec_unfold _ _ _ _ _ Heff).
  split.
  - intros Hgt. apply Z.gt_lt, Z.gtb_lt in Hgt. rewrite Hgt. cbn [fst snd].
    split; [reflexivity|]. split; intros Hroom.
    + now apply emit_event_room.
    + now apply emit_event_full.
  - intros Hle.
    destruct (eff >? spec_exec_threshold cfgs) eqn:E; [|reflexivity].
    apply Z.gtb_lt in E. lia.
Qed.

(** A caller with no entry of its own and no tracked parent is allowed and
    leaves no event, whatever threshold the Config holds. *)
Lemma telos_check_exec_untracked ctx m cfgs rb :
  m !! current_pid ctx = None ->
  (forall t, current_task ctx = Some t -> m !! parent_pid t = None) ->
  (forall c, cfgs !! 0 = Some c -> config_u32 c) ->
  telos_check_exec ctx m cfgs rb = (ALLOW, rb).
Proof.
  intros Hself Hparent Hcfg.
  rewrite (telos_check_exec_unfold ctx m cfgs rb TAINT_CLEAN)
    by (apply taint_default; assumption).
  assert (Hle : TAINT_CLEAN <= spec_exec_threshold cfgs).
  { unfold spec_exec_threshold.
    destruct (cfgs !! 0) as [c|] eqn:Hc.
    - destruct (Hcfg c eq_refl) as [[Hlo _] _]. exact Hlo.
    - unfold TAINT_CLEAN, TAINT_MEDIUM. lia. }
  destruct (TAINT_CLEAN >? spec_exec_threshold cfgs) eqn:E; [|reflexivity].
  apply Z.gtb_lt in E. lia.
Qed.

(** Witness of [telos_check_exec_gate]: pid 100 at HIGH under the default
    thresholds is denied and one event reaches the empty channel. *)
Lemma telos_check_exec_gate_witness :
  spec_effective_taint (task_ctx 100 1) (tracked 100 TAINT_HIGH) TAINT_HIGH /\
  fst (telos_check_exec (task_ctx 100 1) (tracked 100 TAINT_HIGH)
         (config_of 2 3 1) []) = DENY /\
  snd (telos_check_exec (task_ctx 100 1) (tracked 100 TAINT_HIGH)
         (config_of 2 3 1) [])
    = [blocked_event (task_ctx 100 1) TAINT_HIGH "execve"].
Proof.
  assert (H : spec_effective_taint (task_ctx 100 1) (tracked 100 TAINT_HIGH)
                TAINT_HIGH).
  { apply (taint_direct (task_ctx 100 1) (tracked 100 TAINT_HIGH)
             (mk_process_info 100 TAINT_HIGH 0 comm_zero)).
    vm_compute. reflexivity. }
  split; [exact H|].
  destruct (telos_check_exec_gate (task_ctx 100 1) (tracked 100 TAINT_HIGH)
              (config_of 2 3 1) [] TAINT_HIGH H) as [Hexceeds _].
  destruct Hexceeds as (Hverdict & Hroom & _).
  { vm_compute. reflexivity. }
  split; [exact Hverdict|].
  apply Hroom. vm_compute. discriminate.
Defined.

(** C1 (as stated) fails on a full event channel: the effective taint HIGH
    exceeds the threshold MEDIUM, the verdict is DENY, and no event is
    emitted: the channel after the call is the channel before it. *)
Lemma telos_check_exec_full_ring_no_event :
  spec_effective_taint (task_ctx 100 1) (tracked 100 TAINT_HIGH) TAINT_HIGH /\
  TAINT_HIGH > spec_exec_threshold (config_of 2 3 1) /\
  telos_check_exec (task_ctx 100 1) (tracked 100 TAINT_HIGH)
    (config_of 2 3 1) full_ring = (DENY, full_ring) /\
  ~ (exists e,
       snd (telos_check_exec (task_ctx 100 1) (tracked 100 TAINT_HIGH)
              (config_of 2 3 1) full_ring) = full_ring ++ [e]).
Proof.
  split.
  { apply (taint_direct (task_ctx 100 1) (tracked 100 TAINT_HIGH)
             (mk_process_info 100 TAINT_HIGH 0 comm_zero)).
    vm_compute. reflexivity. }
  split; [vm_compute; reflexivity|].
  assert (Hrun : telos_check_exec (task_ctx 100 1) (tracked 100 TAINT_HIGH)
                   (config_of 2 3 1) full_ring = (DENY, full_ring))
    by (vm_compute; reflexivity).
  split; [exact Hrun|].
  rewrite Hrun. cbn [snd]. intros [e He].
  apply (f_equal length) in He. rewrite length_app in He.
  cbn [length] in He. lia.
Qed.

(** ** The file-open gate *)

Lemma byte_eqb_of_ascii a c :
  Byte.eqb (byte_of_ascii a) (byte_of_ascii c) = Ascii.eqb a c.
Proof.
  destruct (Ascii.eqb_spec a c) as [->|Hne].
  - apply Byte.byte_dec_lb. reflexivity.
  - destruct (Byte.eqb _ _) eqn:E; [|reflexivity].
    apply Byte.byte_dec_bl in E.
    apply (f_equal ascii_of_byte) in E.
    rewrite !ascii_of_byte_of_ascii in E. contradiction.
Qed.

Lemma byte_eqb_ascii_ne a c :
  c <> a -> Byte.eqb (byte_of_ascii a) (byte_of_ascii c) = false.
Proof.
  intros Hne. rewrite byte_eqb_of_ascii. apply Ascii.eqb_neq. congruence.
Qed.

(** One character of the pattern against the head of the name. *)
Ltac head_differs H b c :=
  cbn [take app lookup list_lookup];
  change b with (byte_of_ascii c);
  rewrite (byte_eqb_ascii_ne _ _ H); reflexivity.

(** Reading a readable name never fails, and the three byte comparisons
    of the gate hold exactly when the name begins with "id_": stale bytes
    behind the terminating NUL are never consulted. *)
Lemma probe_read_name_check stale name :
  0 < fst (bpf_probe_read_kernel_str stale 32 (Some name)) /\
  name_check (snd (bpf_probe_read_kernel_str stale 32 (Some name)))
  = String.prefix "id_" name.
Proof.
  split.
  { cbn [bpf_probe_read_kernel_str fst]. rewrite length_app. cbn [length]. lia. }
  unfold name_check. cbn [bpf_probe_read_kernel_str snd].
  change (32 - 1)%nat with 31%nat.
  destruct name as [|a s1]; [reflexivity|].
  cbn [c_string String.prefix].
  destruct (Ascii.eqb_spec a Ascii.zero) as [->|_]; [reflexivity|].
  destruct (ascii_dec "i"%char a) as [<-|Hi].
  2: head_differs Hi "i"%byte "i"%char.
  destruct s1 as [|b s2]; [reflexivity|].
  cbn [c_string String.prefix].
  destruct (Ascii.eqb_spec b Ascii.zero) as [->|_]; [reflexivity|].
  destruct (ascii_dec "d"%char b) as [<-|Hd].
  2: head_differs Hd "d"%byte "d"%char.
  destruct s2 as [|c s3]; [reflexivity|].
  cbn [c_string String.prefix].
  destruct (Ascii.eqb_spec c Ascii.zero) as [->|_]; [reflexivity|].
  destruct (ascii_dec "_"%char c) as [<-|Hu].
  2: head_differs Hu "_"%byte "_"%char.
  destruct s3; reflexivity.
Qed.

(** The gate on a tracked caller at CRITICAL or above whose file has a
    readable name. *)
Lemma telos_check_file_critical ctx f stale m cfgs rb info name :
  m !! current_pid ctx = Some info ->
  TAINT_CRITICAL <= pi_taint_level info ->
  file_name f = Some name ->
  telos_check_file ctx f stale m cfgs rb =
  if String.prefix "id_" name then
    (if spec_enforcing cfgs then DENY else ALLOW,
     emit_event ctx rb (current_pid ctx) (pi_taint_level info) 1 "open")
  else (ALLOW, rb).
Proof.
  intros Hself Hcrit Hname.
  unfold telos_check_file, file_name, spec_enforcing, get_config, DENY, ALLOW in *.
  rewrite Hself.
  assert (Hge : (pi_taint_level info >=? TAINT_CRITICAL) = true).
  { rewrite Z.geb_leb. now apply Z.leb_le. }
  rewrite Hge.
  destruct (f_path_dentry f) as [d|]; [|discriminate].
  rewrite Hname.
  destruct (probe_read_name_check stale name) as [Hret Hchk].
  unfold name_check in Hchk.
  destruct (bpf_probe_read_kernel_str stale 32 (Some name)) as [ret filename].
  cbn [fst snd] in Hret, Hchk.
  assert (Hlt : (ret <? 0) = false) by (apply Z.ltb_ge; lia).
  rewrite Hlt, Hchk.
  destruct (String.prefix "id_" name); [|reflexivity].
  destruct (cfgs !! 0) as [c|]; [|reflexivity].
  rewrite truthy_spec. destruct (bool_decide (enabled c <> 0)); reflexivity.
Qed.

(** C2 (as the code has it).  A caller without a direct entry is allowed
    (the parent is not consulted); a tracked caller below CRITICAL is
    allowed; a caller at CRITICAL opening a file whose name begins with
    "id_" gets DENY under enforcement and ALLOW otherwise, and exactly one
    event with [blocked = 1] and action "open" is appended provided the
    event channel has room (on a full channel the event is dropped); a
    CRITICAL caller opening a file with any other name is allowed with no
    event. *)
Theorem telos_check_file_gate ctx f stale m cfgs rb :
  (m !! current_pid ctx = None ->
     telos_check_file ctx f stale m cfgs rb = (ALLOW, rb)) /\
  (forall info, m !! current_pid ctx = Some info ->
     (pi_taint_level info < TAINT_CRITICAL ->
        telos_check_file ctx f stale m cfgs rb = (ALLOW, rb)) /\
     (pi_taint_level info = TAINT_CRITICAL ->
        forall name, file_name f = Some name ->
          (String.prefix "id_" name = true ->
             fst (telos_check_file ctx f stale m cfgs rb)
               = (if spec_enforcing cfgs then DENY else ALLOW) /\
             (ringbuf_has_room rb ->
                snd (telos_check_file ctx f stale m cfgs rb)
                  = rb ++ [blocked_event ctx TAINT_CRITICAL "open"]) /\
             (~ ringbuf_has_room rb ->
                snd (telos_check_file ctx f stale m cfgs rb) = rb)) /\
          (String.prefix "id_" name = false ->
             telos_check_file ctx f stale m cfgs rb = (ALLOW, rb)))).
Proof.
  split.
  - intros Hnone. unfold telos_check_file. rewrite Hnone. reflexivity.
  - intros info Hself. split.
    + intros Hlow. unfold telos_check_file. rewrite Hself.
      assert (Hge : (pi_taint_level info >=? TAINT_CRITICAL) = false).
      { rewrite Z.geb_leb. apply Z.leb_gt. exact Hlow. }
      rewrite Hge. reflexivity.
    + intros Hcrit name Hname.
      rewrite (telos_check_file_critical ctx f stale m cfgs rb info name
                 Hself ltac:(lia) Hname).
      split; intros Hpre; rewrite Hpre; [|reflexivity].
      cbn [fst snd]. rewrite Hcrit.
      split; [reflexivity|]. split; intros Hroom.
      * apply emit_event_room. exact Hroom.
      * apply emit_event_full. exact Hroom.
Qed.

(** Witness of [telos_check_file_gate]: under enforcement a CRITICAL pid is
    denied "id_rsa" (with one event) and allowed "notes.txt". *)
Lemma telos_check_file_gate_witness :
  telos_check_file (task_ctx 100 1) (named_file "id_rsa") (fun _ => x00)
    (tracked 100 TAINT_CRITICAL) (config_of 2 3 1) []
  = (DENY, [blocked_event (task_ctx 100 1) TAINT_CRITICAL "open"]) /\
  telos_check_file (task_ctx 100 1) (named_file "notes.txt") (fun _ => x00)
    (tracked 100 TAINT_CRITICAL) (config_of 2 3 1) []
  = (ALLOW, []).
Proof.
  assert (Hself : tracked 100 TAINT_CRITICAL !! current_pid (task_ctx 100 1)
                  = Some (mk_process_info 100 TAINT_CRITICAL 0 comm_zero))
    by (vm_compute; reflexivity).
  split.
  - destruct (telos_check_file_gate (task_ctx 100 1) (named_file "id_rsa")
                (fun _ => x00) (tracked 100 TAINT_CRITICAL) (config_of 2 3 1) [])
      as [_ Htracked].
    destruct (Htracked _ Hself) as [_ Hcritical].
    destruct (Hcritical eq_refl "id_rsa"%string eq_refl) as [Hmatch _].
    destruct (Hmatch eq_refl) as (Hverdict & Hroom & _).
    apply injective_projections.
    + exact Hverdict.
    + apply Hroom. vm_compute. discriminate.
  - destruct (telos_check_file_gate (task_ctx 100 1) (named_file "notes.txt")
                (fun _ => x00) (tracked 100 TAINT_CRITICAL) (config_of 2 3 1) [])
      as [_ Htracked].
    destruct (Htracked _ Hself) as [_ Hcritical].
    destruct (Hcritical eq_refl "notes.txt"%string eq_refl) as [_ Hother].
    exact (Hother eq_refl).
Defined.

(** C2 (as stated) fails on a full event channel: pid 100 at CRITICAL opens
    "id_rsa" under enforcement, the verdict is DENY, and no event is
    emitted. *)
Lemma telos_check_file_full_ring_no_event :
  tracked 100 TAINT_CRITICAL !! current_pid (task_ctx 100 1)
    = Some (mk_process_info 100 TAINT_CRITICAL 0 comm_zero) /\
  String.prefix "id_" "id_rsa" = true /\
  telos_check_file (task_ctx 100 1) (named_file "id_rsa") (fun _ => x00)
    (tracked 100 TAINT_CRITICAL) (config_of 2 3 1) full_ring
  = (DENY, full_ring) /\
  ~ (exists e,
       snd (telos_check_file (task_ctx 100 1) (named_file "id_rsa")
              (fun _ => x00) (tracked 100 TAINT_CRITICAL) (config_of 2 3 1)
              full_ring) = full_ring ++ [e]).
Proof.
  split; [vm_compute; reflexivity|].
  split; [reflexivity|].
  assert (Hrun : telos_check_file (task_ctx 100 1) (named_file "id_rsa")
                   (fun _ => x00) (tracked 100 TAINT_CRITICAL)
                   (config_of 2 3 1) full_ring = (DENY, full_ring))
    by (vm_compute; reflexivity).
  split; [exact Hrun|].
  rewrite Hrun. cbn [snd]. intros [e He].
  apply (f_equal length) in He. rewrite length_app in He.
  cbn [length] in He. lia.
Qed.

(** C9.  The file-open gate does not depend on [max_taint_for_open]: two
    Config values that agree on the other two fields give the same verdict
    and the same event channel, whatever the table, the caller and the
    file. *)
Theorem telos_check_file_ignores_max_taint_for_open
    ctx f stale m (cfgs1 cfgs2 : gmap Z telos_config_t) c1 c2 rb :
  cfgs1 !! 0 = Some c1 ->
  cfgs2 !! 0 = Some c2 ->
  max_taint_for_exec c1 = max_taint_for_exec c2 ->
  enabled c1 = enabled c2 ->
  telos_check_file ctx f stale m cfgs1 rb
  = telos_check_file ctx f stale m cfgs2 rb.
Proof.
  intros H1 H2 _ Hen.
  unfold telos_check_file, get_config. rewrite H1, H2, Hen. reflexivity.
Qed.

(** Witness of [telos_check_file_ignores_max_taint_for_open]: thresholds
    HIGH and CLEAN for [max_taint_for_open] decide alike. *)
Lemma telos_check_file_ignores_max_taint_for_open_witness :
  telos_check_file (task_ctx 100 1) (named_file "id_rsa") (fun _ => x00)
    (tracked 100 TAINT_HIGH) (config_of 2 3 1) []
  = telos_check_file (task_ctx 100 1) (named_file "id_rsa") (fun _ => x00)
      (tracked 100 TAINT_HIGH) (config_of 2 0 1) [].
Proof.
  apply (telos_check_file_ignores_max_taint_for_open
           (task_ctx 100 1) (named_file "id_rsa") (fun _ => x00)
           (tracked 100 TAINT_HIGH) (config_of 2 3 1) (config_of 2 0 1)
           (mk_config 2 3 1) (mk_config 2 0 1) []);
    reflexivity.
Defined.

(* ===================================================================== *)
(** * Properties of the control-plane daemon *)
(* ===================================================================== *)

Import loader.

(** ** The tables *)

Lemma Put_room {V} max_entries (m : gmap Z V) k v :
  is_Some (m !! k) \/ Z.of_nat (size m) < max_entries ->
  Put max_entries m k v = inr (<[k := v]> m).
Proof.
  intros [[x Hx]|Hsize]; unfold Put.
  - rewrite Hx. reflexivity.
  - destruct (m !! k); [reflexivity|].
    apply Z.ltb_lt in Hsize. rewrite Hsize. reflexivity.
Qed.

Lemma Put_full {V} max_entries (m : gmap Z V) k v :
  m !! k = None -> max_entries <= Z.of_nat (size m) ->
  Put max_entries m k v = inl ErrMapFull.
Proof.
  intros Hk Hsize. unfold Put. rewrite Hk.
  apply Z.ltb_ge in Hsize. rewrite Hsize. reflexivity.
Qed.

(** A successful [Put] stores the value under the key and nothing else. *)
Lemma Put_inr {V} max_entries (m m' : gmap Z V) k v :
  Put max_entries m k v = inr m' -> m' = <[k := v]> m.
Proof.
  unfold Put. destruct (m !! k).
  - intros [= <-]. reflexivity.
  - destruct (_ <? _); [intros [= <-]; reflexivity | discriminate].
Qed.

Lemma Put_again {V} max_entries (m : gmap Z V) k v v' :
  Put max_entries (<[k := v]> m) k v' = inr (<[k := v']> m).
Proof.
  unfold Put. rewrite lookup_insert_eq, insert_insert_eq. reflexivity.
Qed.

(** After [Delete], successful or not, the key is absent. *)
Lemma Delete_absent {V} (m : gmap Z V) k :
  match Delete m k with inl _ => m | inr m' => m' end !! k = None.
Proof.
  unfold Delete. destruct (m !! k) eqn:Hk.
  - apply lookup_delete_eq.
  - exact Hk.
Qed.

Section DaemonProperties.

Context (overflow : Q -> Z) (error_text : map_error -> string).

Local Abbreviation uint32 := (loader.uint32 overflow).
Local Abbreviation cmdUpdateTaint := (loader.cmdUpdateTaint overflow error_text).
Local Abbreviation cmdClearTaint := (loader.cmdClearTaint overflow).
Local Abbreviation cmdRegisterAgent := (loader.cmdRegisterAgent overflow error_text).
Local Abbreviation handleCommand := (loader.handleCommand overflow error_text).
Local Abbreviation handleConnection := (loader.handleConnection overflow error_text).

(** A pid or level that fits 32 bits is converted to itself. *)
Lemma uint32_inject_Z z : 0 <= z < 2 ^ 32 -> uint32 (inject_Z z) = z.
Proof.
  intros [Hlo Hhi]. unfold loader.uint32, inject_Z. cbn [Qnum Qden].
  rewrite Z.quot_1_r.
  apply Z.leb_le in Hlo. apply Z.ltb_lt in Hhi. rewrite Hlo, Hhi. reflexivity.
Qed.

(** What each command does to the table, for commands with numeric
    fields. *)
Lemma handle_UPDATE_TAINT f g d :
  handleCommand (UPDATE_TAINT f g) d =
  match Put bpf_lsm.process_map_max_entries (ProcessMap (maps d)) (uint32 f)
          (mk_process_info (uint32 f) (uint32 g) 0 comm_zero) with
  | inl err => (failure (error_text err), d)
  | inr m =>
      (success,
       log_line (set_ProcessMap d m)
         ("[UPDATE] PID " +:+ pretty (uint32 f) +:+ " taint -> "
            +:+ pretty (uint32 g)))
  end.
Proof. reflexivity. Qed.

Lemma handle_CLEAR_TAINT f d :
  handleCommand (CLEAR_TAINT f) d =
  match Delete (ProcessMap (maps d)) (uint32 f) with
  | inl err =>
      (success,
       log_line d ("[CLEAR] PID " +:+ pretty (uint32 f) +:+ " (was not tracked)"))
  | inr m =>
      (success,
       log_line (set_ProcessMap d m)
         ("[CLEAR] PID " +:+ pretty (uint32 f) +:+ " taint cleared"))
  end.
Proof. reflexivity. Qed.

Lemma handle_REGISTER_AGENT f comm d :
  handleCommand (REGISTER_AGENT f comm) d =
  match Put bpf_lsm.process_map_max_entries (ProcessMap (maps d)) (uint32 f)
          (mk_process_info (uint32 f) TaintClean 0
             (if String.eqb comm "" then comm_zero
              else copy comm_zero (String.list_byte_of_string comm))) with
  | inl err => (failure (error_text err), d)
  | inr m =>
      (success,
       log_line (set_ProcessMap d m)
         ("[REGISTER] Agent PID " +:+ pretty (uint32 f) +:+ " (" +:+ comm
            +:+ ")"))
  end.
Proof. reflexivity. Qed.

Lemma handle_GET_STATE d :
  handleCommand GET_STATE d =
  (mk_response true ""
     (Some (DataState
              ((fun value => mk_process_state (pi_taint_level value)
                                              (pi_is_sandboxed value))
                 <$> ProcessMap (maps d))
              (Z.of_nat (size ((fun value =>
                                  mk_process_state (pi_taint_level value)
                                                   (pi_is_sandboxed value))
                                 <$> ProcessMap (maps d)))))),
   d).
Proof. reflexivity. Qed.

(** ** Last write wins *)

(** One taint update on a table that can take the pid: the entry is the
    new record, whatever was there. *)
Lemma UPDATE_TAINT_stores f g d :
  is_Some (ProcessMap (maps d) !! uint32 f) \/
  Z.of_nat (size (ProcessMap (maps d))) < bpf_lsm.process_map_max_entries ->
  fst (handleCommand (UPDATE_TAINT f g) d) = success /\
  ProcessMap (maps (snd (handleCommand (UPDATE_TAINT f g) d)))
  = <[uint32 f := mk_process_info (uint32 f) (uint32 g) 0 comm_zero]>
      (ProcessMap (maps d)).
Proof.
  intros Hroom. rewrite handle_UPDATE_TAINT, (Put_room _ _ _ _ Hroom).
  split; reflexivity.
Qed.

(** C3 (as the code has it).  On a table that can take the pid (the pid
    is tracked already or a slot is free) taint updates are
    last-write-wins with no merge, for every pid and all levels: after a
    successful UPDATE_TAINT a GET_STATE on the same connection reports the
    pid with the level just written, whatever the table held for it; and
    after REGISTER_AGENT(pid, comm), UPDATE_TAINT(pid, l1),
    UPDATE_TAINT(pid, l2) it reports the pid with level l2, whatever l1
    was. *)
Theorem update_taint_last_write_wins f comm g1 g2 d :
  is_Some (ProcessMap (maps d) !! uint32 f) \/
  Z.of_nat (size (ProcessMap (maps d))) < bpf_lsm.process_map_max_entries ->
  (exists processes count,
     fst (handleConnection [inr (UPDATE_TAINT f g2); inr GET_STATE] d)
     = [success; mk_response true "" (Some (DataState processes count))] /\
     processes !! uint32 f = Some (mk_process_state (uint32 g2) 0)) /\
  (exists processes count,
     fst (handleConnection
            [inr (REGISTER_AGENT f comm);
             inr (UPDATE_TAINT f g1);
             inr (UPDATE_TAINT f g2);
             inr GET_STATE] d)
     = [success; success; success;
        mk_response true "" (Some (DataState processes count))] /\
     processes !! uint32 f = Some (mk_process_state (uint32 g2) 0)).
Proof.
  intros Hroom. split.
  - cbn [loader.handleConnection].
    rewrite handle_UPDATE_TAINT, (Put_room _ _ _ _ Hroom).
    rewrite handle_GET_STATE.
    cbn [maps ProcessMap log_line set_ProcessMap fst].
    eexists _, _. split; [reflexivity|].
    rewrite lookup_fmap, lookup_insert_eq. reflexivity.
  - cbn [loader.handleConnection].
    rewrite handle_REGISTER_AGENT, (Put_room _ _ _ _ Hroom).
    rewrite handle_UPDATE_TAINT.
    cbn [maps ProcessMap log_line set_ProcessMap].
    rewrite Put_again.
    rewrite handle_UPDATE_TAINT.
    cbn [maps ProcessMap log_line set_ProcessMap].
    rewrite Put_again.
    rewrite handle_GET_STATE.
    cbn [maps ProcessMap log_line set_ProcessMap fst].
    eexists _, _. split; [reflexivity|].
    rewrite lookup_fmap, lookup_insert_eq. reflexivity.
Qed.

(** ** Clearing *)

Lemma CLEAR_TAINT_success f d :
  fst (handleCommand (CLEAR_TAINT f) d) = success.
Proof.
  rewrite handle_CLEAR_TAINT.
  destruct (Delete (ProcessMap (maps d)) (uint32 f)); reflexivity.
Qed.

Lemma CLEAR_TAINT_untracks f d :
  ProcessMap (maps (snd (handleCommand (CLEAR_TAINT f) d))) !! uint32 f = None.
Proof.
  rewrite handle_CLEAR_TAINT.
  pose proof (Delete_absent (ProcessMap (maps d)) (uint32 f)) as H.
  destruct (Delete (ProcessMap (maps d)) (uint32 f)); exact H.
Qed.

(** C4.  CLEAR_TAINT answers with success for every pid, whether or not
    the pid has an entry.  After UPDATE_TAINT(pid, CRITICAL) and
    CLEAR_TAINT(pid) the pid has no entry, and the pre-execution gate,
    invoked by that pid with no tracked parent, returns ALLOW and emits
    nothing. *)
Theorem clear_taint_idempotent f d :
  fst (handleCommand (CLEAR_TAINT f) d) = success /\
  (forall d1, ProcessMap (maps d1) !! uint32 f = None ->
     fst (handleCommand (CLEAR_TAINT f) d1) = success /\
     ProcessMap (maps (snd (handleCommand (CLEAR_TAINT f) d1)))
       = ProcessMap (maps d1)) /\
  let run :=
    handleConnection [inr (UPDATE_TAINT f (inject_Z TaintCritical));
                      inr (CLEAR_TAINT f)] d in
  (exists r, fst run = [r; success]) /\
  ProcessMap (maps (snd run)) !! uint32 f = None /\
  (forall ctx cfgs rb,
     current_pid ctx = uint32 f ->
     (forall t, current_task ctx = Some t ->
                ProcessMap (maps (snd run)) !! parent_pid t = None) ->
     (forall c, cfgs !! 0 = Some c -> config_u32 c) ->
     telos_check_exec ctx (ProcessMap (maps (snd run))) cfgs rb = (ALLOW, rb)).
Proof.
  split; [apply CLEAR_TAINT_success|].
  split.
  { intros d1 Habsent. split; [apply CLEAR_TAINT_success|].
    rewrite handle_CLEAR_TAINT. unfold Delete. rewrite Habsent. reflexivity. }
  cbn zeta. cbn [loader.handleConnection].
  destruct (handleCommand (UPDATE_TAINT f (inject_Z TaintCritical)) d)
    as [r d1].
  pose proof (CLEAR_TAINT_success f d1) as Hok.
  pose proof (CLEAR_TAINT_untracks f d1) as Hgone.
  destruct (handleCommand (CLEAR_TAINT f) d1) as [r2 d2].
  cbn [fst snd] in *. subst r2.
  split; [exists r; reflexivity|].
  split; [exact Hgone|].
  intros ctx cfgs rb Hpid Hparent Hcfg.
  apply telos_check_exec_untracked; [|assumption|assumption].
  rewrite Hpid. exact Hgone.
Qed.

(** ** Failures of the table *)

(** Whether [Put] fails depends on the table and the key, not on the
    value. *)
Lemma Put_error_any_value {V} max_entries (m : gmap Z V) k v v' err :
  Put max_entries m k v = inl err -> Put max_entries m k v' = inl err.
Proof.
  unfold Put. destruct (m !! k); [discriminate|].
  destruct (_ <? _); [discriminate|]. intros H. exact H.
Qed.

(** C5 (as the code has it).  A failed [Put] is surfaced by UPDATE_TAINT
    and REGISTER_AGENT as a failure response carrying the text of the
    error, and the daemon state is unchanged.  CLEAR_TAINT does not
    surface a failed [Delete]: it answers with success and leaves the
    table as it is. *)
Theorem table_failure_responses data d f err :
  as_float64 (data !! "pid") = Some f ->
  (forall g v,
     as_float64 (data !! "taint_level") = Some g ->
     Put bpf_lsm.process_map_max_entries (ProcessMap (maps d)) (uint32 f) v
       = inl err ->
     cmdUpdateTaint data d = (failure (error_text err), d)) /\
  (forall v,
     Put bpf_lsm.process_map_max_entries (ProcessMap (maps d)) (uint32 f) v
       = inl err ->
     cmdRegisterAgent data d = (failure (error_text err), d)) /\
  (Delete (ProcessMap (maps d)) (uint32 f) = inl err ->
     fst (cmdClearTaint data d) = success /\
     maps (snd (cmdClearTaint data d)) = maps d).
Proof.
  intros Hpid. split; [|split].
  - intros g v Hlevel Hput.
    unfold loader.cmdUpdateTaint. rewrite Hpid, Hlevel.
    rewrite (Put_error_any_value _ _ _ _ _ _ Hput). reflexivity.
  - intros v Hput.
    unfold loader.cmdRegisterAgent. rewrite Hpid.
    cbn zeta. rewrite (Put_error_any_value _ _ _ _ _ _ Hput). reflexivity.
  - intros Hdel. unfold loader.cmdClearTaint. rewrite Hpid. cbn zeta.
    rewrite Hdel. split; reflexivity.
Qed.

(** ** Validation *)





(** ** Unknown commands *)

(** C7.  A command whose name is none of the five supported ones is
    answered with the failure "Unknown command: " followed by the name,
    and a PING that follows on the same connection is answered with
    success. *)
Theorem unknown_command name data d :
  name ∉ supported_commands ->
  handleCommand (mk_command name data) d
  = (failure ("Unknown command: " +:+ name), d) /\
  handleConnection [inr (mk_command name data); inr PING] d
  = ([failure ("Unknown command: " +:+ name);
      mk_response true "" (Some (DataString "pong"))], d).
Proof.
  intros Hname.
  assert (Hcmd : handleCommand (mk_command name data) d
                 = (failure ("Unknown command: " +:+ name), d)).
  { unfold loader.handleCommand. cbn [Command Data].
    unfold supported_commands in Hname.
    repeat (apply not_elem_of_cons in Hname; destruct Hname as [Hne Hname];
            apply String.eqb_neq in Hne; rewrite Hne; clear Hne).
    reflexivity. }
  split; [exact Hcmd|].
  cbn [loader.handleConnection]. rewrite Hcmd. reflexivity.
Qed.

(** ** UPDATE_TAINT writes a whole record *)

(** C10.  A successful UPDATE_TAINT stores a fresh record: on a pid that
    already has an entry, whatever its comm and is_sandboxed, the command
    succeeds and the entry afterwards has the new pid and taint level, an
    all-zero comm and is_sandboxed = 0. *)
Theorem update_taint_replaces_record data d f g old :
  as_float64 (data !! "pid") = Some f ->
  as_float64 (data !! "taint_level") = Some g ->
  ProcessMap (maps d) !! uint32 f = Some old ->
  fst (cmdUpdateTaint data d) = success /\
  ProcessMap (maps (snd (cmdUpdateTaint data d))) !! uint32 f
  = Some {| pi_pid := uint32 f; pi_taint_level := uint32 g;
            pi_is_sandboxed := 0; pi_comm := replicate 16 x00 |}.
Proof.
  intros Hpid Hlevel Hold.
  unfold loader.cmdUpdateTaint. rewrite Hpid, Hlevel. cbn zeta.
  rewrite Put_room by (left; rewrite Hold; eexists; reflexivity).
  cbn [fst snd maps ProcessMap log_line set_ProcessMap].
  split; [reflexivity|]. apply lookup_insert_eq.
Qed.

(** ** Bootstrap *)

(** Find a line in a log that has been computed. *)
Ltac find_in_log :=
  vm_compute;
  repeat first [apply list_elem_of_here | apply list_elem_of_further].

(** C8.  When the steps before the hooks succeed: a failure to attach the
    pre-execution gate ends [main] with a fatal error and the command
    socket is never opened; a failure to attach the file-open gate or the
    process-creation observer is logged as a warning, the link stays nil,
    and startup goes on: with the Config written and the socket opened,
    the daemon serves commands. *)
Theorem attach_failures env :
  Geteuid env = 0 ->
  RemoveMemlock env = None ->
  MkdirAll env = None ->
  LoadCollectionSpec env = None ->
  NewCollection env = None ->
  (forall err,
     Programs env "telos_check_exec" = true ->
     AttachLSM env "telos_check_exec" = Some err ->
     exists d,
       loader.main error_text env
       = (Fatal ("Failed to start: failed to load BPF: attach check_exec: "
                   +:+ err), d) /\
       listener d = false) /\
  (Programs env "telos_check_exec" = false \/
   AttachLSM env "telos_check_exec" = None ->
   ConfigPut env = None ->
   Listen env = None ->
   exists d,
     loader.main error_text env = (Running, d) /\
     listener d = true /\
     (forall err,
        Programs env "telos_check_file" = true ->
        AttachLSM env "telos_check_file" = Some err ->
        "Warning: Failed to attach check_file: " +:+ err ∈ log d /\
        CheckFile (links d) = false) /\
     (forall err,
        Programs env "telos_task_alloc" = true ->
        AttachLSM env "telos_task_alloc" = Some err ->
        "Warning: Failed to attach task_alloc: " +:+ err ∈ log d /\
        TaskAlloc (links d) = false)).
Proof.
  intros Heuid Hmem Hmkdir Hspec Hcoll. split.
  - intros err Hprog Hattach.
    unfold loader.main, loader.Start, loader.loadBPF.
    rewrite Heuid, Hmem, Hmkdir, Hspec, Hcoll, Hprog, Hattach.
    destruct (Pin env); eexists; split; reflexivity.
  - intros Hexec Hconfig Hlisten.
    unfold loader.main, loader.Start, loader.loadBPF, loader.initConfig,
      loader.startSocketServer.
    rewrite Heuid, Hmem, Hmkdir, Hspec, Hcoll, Hconfig, Hlisten.
    assert (Hexec' :
      (if Programs env "telos_check_exec"
       then AttachLSM env "telos_check_exec" else None) = None).
    { destruct Hexec as [-> | ->]; [reflexivity|].
      destruct (Programs env "telos_check_exec"); reflexivity. }
    destruct (Pin env) as [pin_err|];
      destruct (Programs env "telos_check_exec");
      try rewrite Hexec';
      destruct (Programs env "telos_check_file");
      try destruct (AttachLSM env "telos_check_file") as [file_err|];
      destruct (Programs env "telos_task_alloc");
      try destruct (AttachLSM env "telos_task_alloc") as [task_err|];
      (eexists; split; [reflexivity|]; split; [reflexivity|];
       split; intros err Hprog Hattach; try discriminate;
       injection Hattach as ->;
       (split; [find_in_log | reflexivity])).
Qed.

End DaemonProperties.

(** ** The daemon on sample inputs *)

(** Witness of [update_taint_last_write_wins]: the scenario of the
    specification on a daemon that has just started reports pid 100 at
    LOW. *)
Lemma update_taint_last_write_wins_witness :
  exists processes count,
    fst (handleConnection sample_overflow sample_error_text
           [inr (REGISTER_AGENT (inject_Z 100) "agent");
            inr (UPDATE_TAINT (inject_Z 100) (inject_Z TaintHigh));
            inr (UPDATE_TAINT (inject_Z 100) (inject_Z TaintLow));
            inr GET_STATE] started_daemon)
    = [success; success; success;
       mk_response true "" (Some (DataState processes count))] /\
    processes !! 100 = Some (mk_process_state TaintLow 0).
Proof.
  destruct (update_taint_last_write_wins sample_overflow sample_error_text
              (inject_Z 100) "agent" (inject_Z TaintHigh) (inject_Z TaintLow)
              started_daemon) as [_ (processes & count & Hrun & Hentry)].
  - right. vm_compute. reflexivity.
  - exists processes, count. split; [exact Hrun|exact Hentry].
Defined.

(** C3 (as stated) fails on a full table that does not track pid 100: the
    three commands are refused and GET_STATE does not report the pid. *)
Lemma last_write_lost_on_full_table :
  Z.of_nat (size (ProcessMap (maps crowded_daemon)))
    = bpf_lsm.process_map_max_entries /\
  ProcessMap (maps crowded_daemon) !! 100 = None /\
  exists processes count,
    fst (handleConnection sample_overflow sample_error_text
           [inr (REGISTER_AGENT (inject_Z 100) "agent");
            inr (UPDATE_TAINT (inject_Z 100) (inject_Z TaintHigh));
            inr (UPDATE_TAINT (inject_Z 100) (inject_Z TaintLow));
            inr GET_STATE] crowded_daemon)
    = [failure "update: key too big for map: argument list too long";
       failure "update: key too big for map: argument list too long";
       failure "update: key too big for map: argument list too long";
       mk_response true "" (Some (DataState processes count))] /\
    processes !! 100 = None.
Proof.
  assert (Hsize : Z.of_nat (size (ProcessMap (maps crowded_daemon)))
                  = bpf_lsm.process_map_max_entries)
    by (vm_compute; reflexivity).
  assert (Hnone : ProcessMap (maps crowded_daemon) !! 100 = None)
    by (vm_compute; reflexivity).
  split; [exact Hsize|]. split; [exact Hnone|].
  assert (Hfull : forall v,
    Put bpf_lsm.process_map_max_entries (ProcessMap (maps crowded_daemon))
      (uint32 sample_overflow (inject_Z 100)) v = inl ErrMapFull).
  { intros v. apply Put_full; [exact Hnone|]. rewrite Hsize. reflexivity. }
  cbn [handleConnection].
  rewrite (handle_REGISTER_AGENT sample_overflow sample_error_text), Hfull.
  rewrite (handle_UPDATE_TAINT sample_overflow sample_error_text), Hfull.
  rewrite (handle_UPDATE_TAINT sample_overflow sample_error_text), Hfull.
  rewrite (handle_GET_STATE sample_overflow sample_error_text).
  cbn [fst]. eexists _, _. split; [reflexivity|].
  rewrite lookup_fmap, Hnone. reflexivity.
Qed.

(** Witness of [clear_taint_idempotent]: pid 100 is marked CRITICAL and
    cleared on a fresh daemon; its exec is then allowed under the default
    Config. *)
Lemma clear_taint_idempotent_witness :
  let run :=
    handleConnection sample_overflow sample_error_text
      [inr (UPDATE_TAINT (inject_Z 100) (inject_Z TaintCritical));
       inr (CLEAR_TAINT (inject_Z 100))] NewTelosDaemon in
  telos_check_exec (task_ctx 100 1) (ProcessMap (maps (snd run)))
    (config_of 2 3 1) []
  = (ALLOW, []).
Proof.
  destruct (clear_taint_idempotent sample_overflow sample_error_text
              (inject_Z 100) NewTelosDaemon) as (_ & _ & _ & _ & Hexec).
  apply Hexec.
  - vm_compute. reflexivity.
  - intros t Ht. injection Ht as <-. vm_compute. reflexivity.
  - intros c Hc. vm_compute in Hc. injection Hc as <-.
    unfold config_u32. cbn. lia.
Defined.

(** Witness of [table_failure_responses]: pid 5000 does not fit a full
    table, and UPDATE_TAINT reports the error. *)
Lemma table_failure_responses_witness :
  cmdUpdateTaint sample_overflow sample_error_text
    (Data (UPDATE_TAINT (inject_Z 5000) (inject_Z TaintHigh))) full_daemon
  = (failure "update: key too big for map: argument list too long",
     full_daemon).
Proof.
  destruct (table_failure_responses sample_overflow sample_error_text
              (Data (UPDATE_TAINT (inject_Z 5000) (inject_Z TaintHigh)))
              full_daemon (inject_Z 5000) ErrMapFull eq_refl)
    as (Hupdate & _ & _).
  apply (Hupdate (inject_Z TaintHigh)
           (mk_process_info 5000 TaintHigh 0 comm_zero) eq_refl).
  vm_compute. reflexivity.
Defined.

(** C5 (as stated) fails for CLEAR_TAINT: on a daemon that tracks nothing
    the [Delete] of pid 7 fails, and the response is a success. *)
Lemma clear_taint_hides_delete_failure :
  Delete (ProcessMap (maps NewTelosDaemon)) (uint32 sample_overflow (inject_Z 7))
    = inl ErrKeyNotExist /\
  handleCommand sample_overflow sample_error_text (CLEAR_TAINT (inject_Z 7))
    NewTelosDaemon
  = (mk_response true "" None,
     log_line NewTelosDaemon "[CLEAR] PID 7 (was not tracked)").
Proof. split; vm_compute; reflexivity. Qed.



(** Witness of [unknown_command]: the command "FOO". *)
Lemma unknown_command_witness :
  handleConnection sample_overflow sample_error_text
    [inr (mk_command "FOO" ∅); inr PING] NewTelosDaemon
  = ([mk_response false "Unknown command: FOO" None;
      mk_response true "" (Some (DataString "pong"))],
     NewTelosDaemon).
Proof.
  destruct (unknown_command sample_overflow sample_error_text "FOO" ∅
              NewTelosDaemon) as [_ Hconn].
  - intros Hin. vm_compute in Hin.
    repeat (apply elem_of_cons in Hin; destruct Hin as [Hin|Hin];
            [discriminate Hin|]).
    apply elem_of_nil in Hin. exact Hin.
  - exact Hconn.
Defined.

(** Witness of [update_taint_replaces_record]: the sandboxed agent 100
    named "agent" loses its name and its flag when its taint is set. *)
Lemma update_taint_replaces_record_witness :
  ProcessMap (maps agent_daemon) !! 100
    = Some (mk_process_info 100 TaintClean 1
              (copy comm_zero (String.list_byte_of_string "agent"))) /\
  ProcessMap
    (maps (snd (cmdUpdateTaint sample_overflow sample_error_text
                  (Data (UPDATE_TAINT (inject_Z 100) (inject_Z TaintHigh)))
                  agent_daemon))) !! 100
  = Some (mk_process_info 100 TaintHigh 0 (replicate 16 x00)).
Proof.
  split; [vm_compute; reflexivity|].
  destruct (update_taint_replaces_record sample_overflow sample_error_text
              (Data (UPDATE_TAINT (inject_Z 100) (inject_Z TaintHigh)))
              agent_daemon (inject_Z 100) (inject_Z TaintHigh)
              (mk_process_info 100 TaintClean 1
                 (copy comm_zero (String.list_byte_of_string "agent")))
              eq_refl eq_refl)
    as [_ Hentry].
  - vm_compute. reflexivity.
  - exact Hentry.
Defined.

(** Witness of [attach_failures]: with the exec attachment refused the
    daemon dies before it listens; with the two optional attachments
    refused it runs, listening, with only the exec link. *)
Lemma attach_failures_witness :
  (exists d,
     main sample_error_text (boot ["telos_check_exec"])
     = (Fatal "Failed to start: failed to load BPF: attach check_exec: operation not permitted", d) /\
     listener d = false) /\
  (exists d,
     main sample_error_text (boot ["telos_check_file"; "telos_task_alloc"])
     = (Running, d) /\
     listener d = true /\
     "Warning: Failed to attach check_file: operation not permitted" ∈ log d /\
     "Warning: Failed to attach task_alloc: operation not permitted" ∈ log d /\
     links d = mk_links true false false).
Proof.
  split.
  - destruct (attach_failures sample_error_text (boot ["telos_check_exec"])
                eq_refl eq_refl eq_refl eq_refl eq_refl) as [Hfatal _].
    exact (Hfatal "operation not permitted" eq_refl eq_refl).
  - destruct (attach_failures sample_error_text
                (boot ["telos_check_file"; "telos_task_alloc"])
                eq_refl eq_refl eq_refl eq_refl eq_refl) as [_ Hruns].
    destruct (Hruns (or_intror eq_refl) eq_refl eq_refl)
      as (d & Hmain & Hlisten & Hfile & Htask).
    exists d.
    destruct (Hfile "operation not permitted" eq_refl eq_refl) as [Hf _].
    destruct (Htask "operation not permitted" eq_refl eq_refl) as [Ht _].
    repeat split; try assumption.
    assert (Hd : d = snd (main sample_error_text
                            (boot ["telos_check_file"; "telos_task_alloc"])))
      by (rewrite Hmain; reflexivity).
    rewrite Hd. vm_compute. reflexivity.
Defined.

(** ** The daemon and the engine together *)

(** The end-to-end scenario of the specification, on a daemon started
    with every step succeeding (default thresholds, enforcement on): the
    registered agent 100 may exec, is denied once its taint is HIGH, and
    may exec again once its taint is back to LOW. *)
Example end_to_end_scenario :
  let run cmd d := snd (handleCommand sample_overflow sample_error_text cmd d) in
  let exec d :=
    fst (telos_check_exec (task_ctx 100 1) (ProcessMap (maps d))
           (ConfigMap (maps d)) (Events (maps d))) in
  let d0 := snd (main sample_error_text (boot [])) in
  let d1 := run (REGISTER_AGENT (inject_Z 100) "agent") d0 in
  let d2 := run (UPDATE_TAINT (inject_Z 100) (inject_Z TaintHigh)) d1 in
  let d3 := run (UPDATE_TAINT (inject_Z 100) (inject_Z TaintLow)) d2 in
  fst (main sample_error_text (boot [])) = Running /\
  exec d1 = ALLOW /\ exec d2 = DENY /\ exec d3 = ALLOW.
Proof. vm_compute. repeat split. Qed.

(* ===================================================================== *)
(** * Further properties of the enforcement engine *)
(* ===================================================================== *)

Section EngineProperties.

Implicit Types (ctx : hook_ctx) (m : gmap Z process_info_t).
Implicit Types (cfgs : gmap Z telos_config_t) (rb : list event_t).

(** ** The event channel *)

Lemma emit_event_cases ctx rb pid taint blocked action :
  emit_event ctx rb pid taint blocked action = rb \/
  (ringbuf_has_room rb /\
   emit_event ctx rb pid taint blocked action
   = rb ++ [mk_event pid taint blocked (current_comm ctx) action]).
Proof.
  unfold emit_event. destruct (bpf_ringbuf_reserve rb) eqn:E.
  - right. split; [apply reserve_has_room; exact E | reflexivity].
  - left. reflexivity.
Qed.

(** What a hook leaves in the channel is the channel it found, or that
    channel with one record written by [emit_event]. *)
Lemma telos_check_exec_events ctx m cfgs rb :
  snd (telos_check_exec ctx m cfgs rb) = rb \/
  exists taint,
    snd (telos_check_exec ctx m cfgs rb)
    = emit_event ctx rb (current_pid ctx) taint 1 "execve".
Proof.
  unfold telos_check_exec.
  destruct (_ >? _); [|left; reflexivity].
  right. eexists. destruct (truthy _); reflexivity.
Qed.

Lemma telos_check_file_events ctx f stale m cfgs rb :
  snd (telos_check_file ctx f stale m cfgs rb) = rb \/
  exists taint,
    snd (telos_check_file ctx f stale m cfgs rb)
    = emit_event ctx rb (current_pid ctx) taint 1 "open".
Proof.
  unfold telos_check_file.
  destruct (m !! current_pid ctx) as [info|]; [|left; reflexivity].
  destruct (_ >=? _); [|left; reflexivity].
  destruct (f_path_dentry f) as [d|]; [|left; reflexivity].
  destruct (bpf_probe_read_kernel_str stale 32 (d_name d)) as [ret filename].
  destruct (ret <? 0); [left; reflexivity|].
  destruct (_ && _); [|left; reflexivity].
  right. eexists. destruct (truthy _); reflexivity.
Qed.

Lemma emit_event_append_only ctx rb pid taint blocked action :
  rb `prefix_of` emit_event ctx rb pid taint blocked action /\
  (length (emit_event ctx rb pid taint blocked action) <= S (length rb))%nat /\
  (ringbuf_within_capacity rb ->
   ringbuf_within_capacity (emit_event ctx rb pid taint blocked action)).
Proof.
  destruct (emit_event_cases ctx rb pid taint blocked action)
    as [-> | [Hroom ->]].
  - split; [reflexivity|]. split; [lia|]. intros H. exact H.
  - split; [apply prefix_app_r; reflexivity|].
    split; [rewrite length_app; cbn [length]; lia|].
    intros _. unfold ringbuf_within_capacity, ringbuf_has_room, ringbuf_used in *.
    rewrite length_app. cbn [length]. lia.
Qed.

(** X1.  The two gates treat the event channel as append-only and bounded:
    the records they find stay in place, at most one record is added per
    invocation, and a channel within its 256 KB stays within them. *)
Theorem hooks_keep_event_channel ctx f stale m cfgs rb :
  let after_exec := snd (telos_check_exec ctx m cfgs rb) in
  let after_open := snd (telos_check_file ctx f stale m cfgs rb) in
  (rb `prefix_of` after_exec /\
   (length after_exec <= S (length rb))%nat /\
   (ringbuf_within_capacity rb -> ringbuf_within_capacity after_exec)) /\
  (rb `prefix_of` after_open /\
   (length after_open <= S (length rb))%nat /\
   (ringbuf_within_capacity rb -> ringbuf_within_capacity after_open)).
Proof.
  cbn zeta. split.
  - destruct (telos_check_exec_events ctx m cfgs rb) as [-> | [taint ->]].
    + split; [reflexivity|]. split; [lia|]. intros H. exact H.
    + apply emit_event_append_only.
  - destruct (telos_check_file_events ctx f stale m cfgs rb)
      as [-> | [taint ->]].
    + split; [reflexivity|]. split; [lia|]. intros H. exact H.
    + apply emit_event_append_only.
Qed.

(** ** When the pre-execution gate denies and when it logs *)

Lemma DENY_not_ALLOW : DENY <> ALLOW.
Proof. unfold DENY, ALLOW, EPERM. lia. Qed.

Lemma app_singleton_neq {A} (l : list A) x : l ++ [x] <> l.
Proof.
  intros H. apply (f_equal length) in H. rewrite length_app in H.
  cbn [length] in H. lia.
Qed.

(** X2.  The pre-execution gate denies exactly when the effective taint
    exceeds the threshold and enforcement is on, and it changes the event
    channel exactly when the threshold is exceeded and the channel has
    room: an exec within the threshold is never logged, an exec in
    audit-only mode is never denied. *)
Theorem telos_check_exec_denies_iff ctx m cfgs rb eff :
  spec_effective_taint ctx m eff ->
  (fst (telos_check_exec ctx m cfgs rb) = DENY <->
   eff > spec_exec_threshold cfgs /\ spec_enforcing cfgs = true) /\
  (snd (telos_check_exec ctx m cfgs rb) <> rb <->
   eff > spec_exec_threshold cfgs /\ ringbuf_has_room rb).
Proof.
  intros Heff. rewrite (telos_check_exec_unfold _ _ _ _ _ Heff).
  destruct (eff >? spec_exec_threshold cfgs) eqn:E; cbn [fst snd].
  - apply Z.gtb_lt in E. split.
    + destruct (spec_enforcing cfgs); split.
      * intros _. split; [lia|reflexivity].
      * intros _. reflexivity.
      * intros H. symmetry in H. apply DENY_not_ALLOW in H. contradiction.
      * intros [_ H]. discriminate H.
    + destruct (emit_event_cases ctx rb (current_pid ctx) eff 1 "execve")
        as [Hsame | [Hroom Happ]].
      * unfold emit_event in *.
        destruct (bpf_ringbuf_reserve rb) eqn:R.
        -- apply app_singleton_neq in Hsame. contradiction.
        -- split; [intros H; contradiction H; reflexivity|].
           intros [_ Hroom]. apply reserve_has_room in Hroom. congruence.
      * rewrite Happ. split.
        -- intros _. split; [lia|exact Hroom].
        -- intros _. apply app_singleton_neq.
  - assert (Hle : eff <= spec_exec_threshold cfgs).
    { destruct (Z.gtb_spec eff (spec_exec_threshold cfgs)); [discriminate|lia]. }
    split; split.
    + intros H. symmetry in H. apply DENY_not_ALLOW in H. contradiction.
    + intros [H _]. lia.
    + intros H. contradiction H. reflexivity.
    + intros [H _]. lia.
Qed.

(** X3.  Taint inheritance is single-hop: the pre-execution gate reads the
    process table at the caller's pid and at its parent's pid only.  Two
    tables that agree on these two keys give the same verdict and the same
    events, whatever they hold for grandparents or other processes. *)
Theorem telos_check_exec_single_hop ctx m1 m2 cfgs rb :
  m1 !! current_pid ctx = m2 !! current_pid ctx ->
  (forall t, current_task ctx = Some t ->
             m1 !! parent_pid t = m2 !! parent_pid t) ->
  telos_check_exec ctx m1 cfgs rb = telos_check_exec ctx m2 cfgs rb.
Proof.
  intros Hself Hparent. unfold telos_check_exec. rewrite Hself.
  destruct (m2 !! current_pid ctx); [reflexivity|].
  destruct (current_task ctx) as [t|]; [|reflexivity].
  rewrite (Hparent t eq_refl). reflexivity.
Qed.

(** X4.  The verdict of the pre-execution gate is monotone in the
    effective taint: under one Config, a table that gives the caller at
    least the effective taint of a denied invocation denies too. *)
Theorem telos_check_exec_monotone ctx m1 m2 cfgs rb1 rb2 eff1 eff2 :
  spec_effective_taint ctx m1 eff1 ->
  spec_effective_taint ctx m2 eff2 ->
  eff1 <= eff2 ->
  fst (telos_check_exec ctx m1 cfgs rb1) = DENY ->
  fst (telos_check_exec ctx m2 cfgs rb2) = DENY.
Proof.
  intros H1 H2 Hle.
  rewrite (telos_check_exec_unfold _ _ _ _ _ H1).
  rewrite (telos_check_exec_unfold _ _ _ _ _ H2).
  destruct (eff1 >? spec_exec_threshold cfgs) eqn:E1; cbn [fst].
  - apply Z.gtb_lt in E1.
    assert (E2 : (eff2 >? spec_exec_threshold cfgs) = true)
      by (apply Z.gtb_lt; lia).
    rewrite E2. cbn [fst]. intros H. exact H.
  - intros H. symmetry in H. apply DENY_not_ALLOW in H. contradiction.
Qed.

(** X5.  In audit-only mode ([enabled = 0]) neither gate ever denies,
    whatever the taint, the thresholds and the file. *)
Theorem audit_mode_never_denies ctx f stale m cfgs rb c :
  cfgs !! 0 = Some c ->
  enabled c = 0 ->
  fst (telos_check_exec ctx m cfgs rb) = ALLOW /\
  fst (telos_check_file ctx f stale m cfgs rb) = ALLOW.
Proof.
  intros Hc Hen. split.
  - unfold telos_check_exec, get_config. rewrite Hc, Hen.
    destruct (_ >? _); reflexivity.
  - unfold telos_check_file, get_config. rewrite Hc, Hen.
    destruct (m !! current_pid ctx) as [info|]; [|reflexivity].
    destruct (_ >=? _); [|reflexivity].
    destruct (f_path_dentry f) as [d|]; [|reflexivity].
    destruct (bpf_probe_read_kernel_str stale 32 (d_name d)) as [ret filename].
    destruct (ret <? 0); [reflexivity|].
    destruct (_ && _); reflexivity.
Qed.

(** ** The file-open gate beyond its deny path *)

Lemma telos_check_file_untracked ctx f stale m cfgs rb :
  m !! current_pid ctx = None ->
  telos_check_file ctx f stale m cfgs rb = (ALLOW, rb).
Proof. intros H. unfold telos_check_file. rewrite H. reflexivity. Qed.

Lemma telos_check_file_low ctx f stale m cfgs rb info :
  m !! current_pid ctx = Some info ->
  pi_taint_level info < TAINT_CRITICAL ->
  telos_check_file ctx f stale m cfgs rb = (ALLOW, rb).
Proof.
  intros Hself Hlow. unfold telos_check_file. rewrite Hself.
  assert (Hge : (pi_taint_level info >=? TAINT_CRITICAL) = false).
  { rewrite Z.geb_leb. apply Z.leb_gt. exact Hlow. }
  rewrite Hge. reflexivity.
Qed.

Lemma telos_check_file_no_name ctx f stale m cfgs rb :
  file_name f = None ->
  telos_check_file ctx f stale m cfgs rb = (ALLOW, rb).
Proof.
  intros Hname. unfold telos_check_file, file_name in *.
  destruct (m !! current_pid ctx) as [info|]; [|reflexivity].
  destruct (_ >=? _); [|reflexivity].
  destruct (f_path_dentry f) as [d|]; [|reflexivity].
  rewrite Hname. reflexivity.
Qed.

(** X6.  The gate reads [filename] from an uninitialised stack array, yet
    its result never depends on what the array held: the bytes behind the
    terminating NUL are not reached by the three comparisons. *)
Theorem telos_check_file_ignores_stale_stack ctx f stale1 stale2 m cfgs rb :
  telos_check_file ctx f stale1 m cfgs rb
  = telos_check_file ctx f stale2 m cfgs rb.
Proof.
  destruct (m !! current_pid ctx) as [info|] eqn:Hself.
  2:{ rewrite !telos_check_file_untracked by exact Hself. reflexivity. }
  destruct (Z_lt_le_dec (pi_taint_level info) TAINT_CRITICAL) as [Hlow|Hcrit].
  { rewrite !(telos_check_file_low _ _ _ _ _ _ _ Hself Hlow). reflexivity. }
  destruct (file_name f) as [name|] eqn:Hname.
  - rewrite !(telos_check_file_critical _ _ _ _ _ _ _ _ Hself Hcrit Hname).
    reflexivity.
  - rewrite !telos_check_file_no_name by exact Hname. reflexivity.
Qed.

(** X7.  The file-open gate fails open: when the file has no dentry or
    its name cannot be read, the open is allowed and nothing is logged,
    even for a caller at CRITICAL under enforcement. *)
Theorem telos_check_file_fails_open ctx f stale m cfgs rb :
  f_path_dentry f = None \/
  (exists d, f_path_dentry f = Some d /\ d_name d = None) ->
  telos_check_file ctx f stale m cfgs rb = (ALLOW, rb).
Proof.
  intros Hbad. apply telos_check_file_no_name. unfold file_name.
  destruct Hbad as [-> | (d & -> & ->)]; reflexivity.
Qed.

(** X8.  The file-open gate denies exactly when the caller has an entry
    of its own at CRITICAL or above, the file's name can be read and
    begins with "id_", and enforcement is on.  Levels above CRITICAL count
    as CRITICAL. *)
Theorem telos_check_file_denies_iff ctx f stale m cfgs rb :
  fst (telos_check_file ctx f stale m cfgs rb) = DENY <->
  exists info name,
    m !! current_pid ctx = Some info /\
    TAINT_CRITICAL <= pi_taint_level info /\
    file_name f = Some name /\
    String.prefix "id_" name = true /\
    spec_enforcing cfgs = true.
Proof.
  split.
  - intros Hdeny.
    destruct (m !! current_pid ctx) as [info|] eqn:Hself.
    2:{ rewrite telos_check_file_untracked in Hdeny by exact Hself.
        symmetry in Hdeny. apply DENY_not_ALLOW in Hdeny. contradiction. }
    destruct (Z_lt_le_dec (pi_taint_level info) TAINT_CRITICAL) as [Hlow|Hcrit].
    { rewrite (telos_check_file_low _ _ _ _ _ _ _ Hself Hlow) in Hdeny.
      symmetry in Hdeny. apply DENY_not_ALLOW in Hdeny. contradiction. }
    destruct (file_name f) as [name|] eqn:Hname.
    2:{ rewrite telos_check_file_no_name in Hdeny by exact Hname.
        symmetry in Hdeny. apply DENY_not_ALLOW in Hdeny. contradiction. }
    rewrite (telos_check_file_critical _ _ _ _ _ _ _ _ Hself Hcrit Hname)
      in Hdeny.
    exists info, name.
    destruct (String.prefix "id_" name); cbn [fst] in Hdeny.
    + destruct (spec_enforcing cfgs).
      * repeat split; assumption || reflexivity.
      * symmetry in Hdeny. apply DENY_not_ALLOW in Hdeny. contradiction.
    + symmetry in Hdeny. apply DENY_not_ALLOW in Hdeny. contradiction.
  - intros (info & name & Hself & Hcrit & Hname & Hpre & Henf).
    rewrite (telos_check_file_critical _ _ _ _ _ _ _ _ Hself Hcrit Hname).
    rewrite Hpre, Henf. reflexivity.
Qed.

(** X9.  The file-open gate has no parent fallback: only the caller's own
    entry is read, so two tables that agree on the caller's pid give the
    same result, whatever they hold for its parent. *)
Theorem telos_check_file_own_entry_only ctx f stale m1 m2 cfgs rb :
  m1 !! current_pid ctx = m2 !! current_pid ctx ->
  telos_check_file ctx f stale m1 cfgs rb
  = telos_check_file ctx f stale m2 cfgs rb.
Proof. intros H. unfold telos_check_file. rewrite H. reflexivity. Qed.

(** X10.  Every hook returns 0 or [-EPERM]; the process-creation observer
    returns 0 for every caller and every table, so a fork is never
    blocked. *)
Theorem hook_return_values ctx f stale m cfgs rb :
  (fst (telos_check_exec ctx m cfgs rb) = 0 \/
   fst (telos_check_exec ctx m cfgs rb) = - EPERM) /\
  (fst (telos_check_file ctx f stale m cfgs rb) = 0 \/
   fst (telos_check_file ctx f stale m cfgs rb) = - EPERM) /\
  telos_task_alloc ctx m = 0.
Proof.
  split; [|split].
  - unfold telos_check_exec.
    destruct (_ >? _); [|left; reflexivity].
    destruct (truthy _); [right|left]; reflexivity.
  - unfold telos_check_file.
    destruct (m !! current_pid ctx) as [info|]; [|left; reflexivity].
    destruct (_ >=? _); [|left; reflexivity].
    destruct (f_path_dentry f) as [d|]; [|left; reflexivity].
    destruct (bpf_probe_read_kernel_str stale 32 (d_name d)) as [ret filename].
    destruct (ret <? 0); [left; reflexivity|].
    destruct (_ && _); [|left; reflexivity].
    destruct (truthy _); [right|left]; reflexivity.
  - unfold telos_task_alloc. destruct (m !! current_pid ctx); reflexivity.
Qed.

End EngineProperties.

(* ===================================================================== *)
(** * Further properties of the control-plane daemon *)
(* ===================================================================== *)

Lemma Put_inr_size {V} max_entries (m m' : gmap Z V) k v :
  Put max_entries m k v = inr m' ->
  Z.of_nat (size m) <= max_entries ->
  Z.of_nat (size m') <= max_entries.
Proof.
  unfold Put. destruct (m !! k) as [old|] eqn:Hk.
  - intros [= <-] Hsize. rewrite map_size_insert_Some by eauto. exact Hsize.
  - destruct (Z.ltb_spec (Z.of_nat (size m)) max_entries) as [Hlt|]; [|discriminate].
    intros [= <-] _. rewrite map_size_insert_None by exact Hk. lia.
Qed.

Lemma copy_comm_length src : length (copy comm_zero src) = 16%nat.
Proof.
  unfold copy, comm_zero.
  rewrite length_app, length_take, length_drop, !length_replicate. lia.
Qed.

(** [copy] into the zeroed comm keeps the first 16 bytes of the source and
    pads with NUL. *)
Lemma copy_comm_zero src :
  copy comm_zero src = take 16 (src ++ replicate 16 x00).
Proof.
  unfold copy, comm_zero. rewrite length_replicate, take_app.
  rewrite drop_replicate, take_replicate. f_equal. f_equal. lia.
Qed.

(** A caller whose own entry is CLEAN passes the pre-execution gate. *)
Lemma telos_check_exec_clean_entry ctx m cfgs rb info :
  m !! current_pid ctx = Some info ->
  pi_taint_level info = TAINT_CLEAN ->
  (forall c, cfgs !! 0 = Some c -> config_u32 c) ->
  telos_check_exec ctx m cfgs rb = (ALLOW, rb).
Proof.
  intros Hself Hclean Hcfg.
  rewrite (telos_check_exec_unfold ctx m cfgs rb TAINT_CLEAN)
    by (rewrite <- Hclean; apply taint_direct; exact Hself).
  assert (Hle : TAINT_CLEAN <= spec_exec_threshold cfgs).
  { unfold spec_exec_threshold.
    destruct (cfgs !! 0) as [c|] eqn:Hc.
    - destruct (Hcfg c eq_refl) as [[Hlo _] _]. exact Hlo.
    - unfold TAINT_CLEAN, TAINT_MEDIUM. lia. }
  destruct (TAINT_CLEAN >? spec_exec_threshold cfgs) eqn:E; [|reflexivity].
  apply Z.gtb_lt in E. lia.
Qed.

(** A command leaves the entries of the pids it does not name. *)
Lemma command_effect_other_keys pid d d' k :
  command_effect pid d d' ->
  pid <> Some k ->
  ProcessMap (maps d') !! k = ProcessMap (maps d) !! k.
Proof.
  intros [->| line -> | k0 info m' line Hpid Hput _ _ _ _ _ ->
         | k0 line Hpid ->] Hne;
    cbn [maps ProcessMap log_line set_ProcessMap]; try reflexivity.
  - apply Put_inr in Hput. subst m'.
    apply lookup_insert_ne. intros ->. apply Hne. exact Hpid.
  - apply lookup_delete_ne. intros ->. apply Hne. exact Hpid.
Qed.

Section DaemonExtras.

Context (overflow : Q -> Z) (error_text : map_error -> string).

Local Abbreviation uint32 := (loader.uint32 overflow).
Local Abbreviation cmdUpdateTaint := (loader.cmdUpdateTaint overflow error_text).
Local Abbreviation cmdClearTaint := (loader.cmdClearTaint overflow).
Local Abbreviation cmdRegisterAgent := (loader.cmdRegisterAgent overflow error_text).
Local Abbreviation handleCommand := (loader.handleCommand overflow error_text).
Local Abbreviation handleConnection := (loader.handleConnection overflow error_text).

Implicit Types (d : TelosDaemon) (cmd : IPCCommand).

(** The pid of a command: its "pid" field, when numeric, converted. *)
Local Abbreviation pid_of cmd := (uint32 <$> as_float64 (Data cmd !! "pid")).

Lemma uint32_range f : 0 <= uint32 f < 2 ^ 32.
Proof.
  unfold loader.uint32.
  destruct (Z.leb_spec 0 (Qnum f ÷ Z.pos (Qden f)));
    destruct (Z.ltb_spec (Qnum f ÷ Z.pos (Qden f)) (2 ^ 32));
    cbn [andb]; try apply u32_range.
  split; assumption.
Qed.

(** ** One command, one bounded effect *)

Lemma cmdUpdateTaint_effect data d :
  command_effect (uint32 <$> as_float64 (data !! "pid")) d
    (snd (cmdUpdateTaint data d)).
Proof.
  unfold loader.cmdUpdateTaint.
  destruct (as_float64 (data !! "pid")) as [f|]; [|apply effect_none; reflexivity].
  destruct (as_float64 (data !! "taint_level")) as [g|];
    [|apply effect_none; reflexivity].
  cbn zeta.
  destruct (Put _ _ _ _) as [err|m'] eqn:Hput; [apply effect_none; reflexivity|].
  eapply effect_put; [reflexivity|exact Hput|reflexivity|apply uint32_range
                     |apply uint32_range|reflexivity|reflexivity|reflexivity].
Qed.

Lemma cmdRegisterAgent_effect data d :
  command_effect (uint32 <$> as_float64 (data !! "pid")) d
    (snd (cmdRegisterAgent data d)).
Proof.
  unfold loader.cmdRegisterAgent.
  destruct (as_float64 (data !! "pid")) as [f|]; [|apply effect_none; reflexivity].
  cbn zeta.
  destruct (Put _ _ _ _) as [err|m'] eqn:Hput; [apply effect_none; reflexivity|].
  eapply effect_put; [reflexivity|exact Hput|reflexivity|apply uint32_range
                     |unfold TaintClean; cbn; lia|reflexivity| |reflexivity].
  cbn [pi_comm]. destruct (String.eqb _ _); [reflexivity|apply copy_comm_length].
Qed.

Lemma cmdClearTaint_effect data d :
  command_effect (uint32 <$> as_float64 (data !! "pid")) d
    (snd (cmdClearTaint data d)).
Proof.
  unfold loader.cmdClearTaint.
  destruct (as_float64 (data !! "pid")) as [f|]; [|apply effect_none; reflexivity].
  cbn zeta. unfold Delete.
  destruct (ProcessMap (maps d) !! uint32 f).
  - eapply effect_delete; reflexivity.
  - eapply effect_log; reflexivity.
Qed.

Lemma handleCommand_effect cmd d :
  command_effect (pid_of cmd) d (snd (handleCommand cmd d)).
Proof.
  unfold loader.handleCommand.
  destruct (String.eqb (Command cmd) "PING"); [apply effect_none; reflexivity|].
  destruct (String.eqb (Command cmd) "UPDATE_TAINT");
    [apply cmdUpdateTaint_effect|].
  destruct (String.eqb (Command cmd) "CLEAR_TAINT");
    [apply cmdClearTaint_effect|].
  destruct (String.eqb (Command cmd) "REGISTER_AGENT");
    [apply cmdRegisterAgent_effect|].
  destruct (String.eqb (Command cmd) "GET_STATE");
    apply effect_none; reflexivity.
Qed.

Lemma command_effect_table_wf pid d d' :
  command_effect pid d d' ->
  table_wf (ProcessMap (maps d)) -> table_wf (ProcessMap (maps d')).
Proof.
  intros [->| line -> | k info m' line _ Hput Hpid Hk Htaint Hsb Hcomm ->
         | k line _ ->] [Hsize Hentries];
    cbn [maps ProcessMap log_line set_ProcessMap].
  - split; assumption.
  - split; assumption.
  - split; [eapply Put_inr_size; eassumption|].
    apply Put_inr in Hput. subst m'.
    intros k' info' Hlook. apply lookup_insert_Some in Hlook.
    destruct Hlook as [[<- <-] | [_ Hlook]]; [|apply Hentries; exact Hlook].
    rewrite Hsb. repeat split; try assumption; try lia.
  - split.
    + pose proof (map_size_delete k (ProcessMap (maps d))) as Hdel.
      destruct (ProcessMap (maps d) !! k); rewrite Hdel; [|exact Hsize].
      eapply Z.le_trans; [|exact Hsize].
      apply Nat2Z.inj_le, Nat.le_pred_l.
    + intros k' info' Hlook. apply lookup_delete_Some in Hlook.
      apply Hentries. apply Hlook.
Qed.

(** X11.  Whatever a client sends on a connection, the process table
    stays within its declaration: never more than 4096 entries, every
    entry stored under its own pid, every field a 32-bit value, every comm
    16 bytes long. *)
Theorem handleConnection_keeps_table_wf lines d :
  table_wf (ProcessMap (maps d)) ->
  table_wf (ProcessMap (maps (snd (handleConnection lines d)))).
Proof.
  revert d. induction lines as [|[err|cmd] rest IH]; intros d Hwf.
  - exact Hwf.
  - cbn [loader.handleConnection]. specialize (IH d Hwf).
    destruct (handleConnection rest d). exact IH.
  - cbn [loader.handleConnection].
    pose proof (handleCommand_effect cmd d) as Heff.
    destruct (handleCommand cmd d) as [resp d1]. cbn [snd] in Heff.
    specialize (IH d1 (command_effect_table_wf _ _ _ Heff Hwf)).
    destruct (handleConnection rest d1). exact IH.
Qed.

(** X12.  A command touches at most one entry of the process table, the
    one of the pid it names; it never writes the Config, the event
    channel, the links or the listener, and it only appends to the log.
    A command without a numeric pid leaves the whole table as it is. *)
Theorem handleCommand_frame cmd d :
  let d' := snd (handleCommand cmd d) in
  ConfigMap (maps d') = ConfigMap (maps d) /\
  Events (maps d') = Events (maps d) /\
  links d' = links d /\
  listener d' = listener d /\
  log d `prefix_of` log d' /\
  (forall k, pid_of cmd <> Some k ->
             ProcessMap (maps d') !! k = ProcessMap (maps d) !! k).
Proof.
  cbn zeta.
  destruct (handleCommand_effect cmd d)
    as [->| line -> | k info m' line Hpid Hput _ _ _ _ _ ->
       | k line Hpid ->];
    cbn [maps ProcessMap ConfigMap Events links listener log
         log_line set_ProcessMap];
    repeat (split; [first [reflexivity | apply prefix_app_r; reflexivity]|]).
  - intros k _. reflexivity.
  - intros k _. reflexivity.
  - intros k' Hne. apply Put_inr in Hput. subst m'.
    apply lookup_insert_ne. intros ->. apply Hne. exact Hpid.
  - intros k' Hne. apply lookup_delete_ne. intros ->. apply Hne. exact Hpid.
Qed.

(** X13.  A connection answers every line with exactly one response, and
    serving a sequence of lines is serving its first part and then the
    rest from the state the first part left. *)
Theorem handleConnection_app lines1 lines2 d :
  length (fst (handleConnection lines1 d)) = length lines1 /\
  handleConnection (lines1 ++ lines2) d
  = (fst (handleConnection lines1 d)
       ++ fst (handleConnection lines2 (snd (handleConnection lines1 d))),
     snd (handleConnection lines2 (snd (handleConnection lines1 d)))).
Proof.
  revert d. induction lines1 as [|[err|cmd] rest IH]; intros d.
  - split; [reflexivity|]. cbn [app loader.handleConnection fst snd].
    destruct (handleConnection lines2 d); reflexivity.
  - destruct (IH d) as [IHlen IHapp].
    cbn [app loader.handleConnection]. rewrite IHapp.
    destruct (handleConnection rest d) as [resps d']. cbn [fst snd length] in *.
    split; [rewrite IHlen; reflexivity | reflexivity].
  - cbn [app loader.handleConnection].
    destruct (handleCommand cmd d) as [resp d1].
    destruct (IH d1) as [IHlen IHapp]. rewrite IHapp.
    destruct (handleConnection rest d1) as [resps d']. cbn [fst snd length] in *.
    split; [rewrite IHlen; reflexivity | reflexivity].
Qed.

(** ** Reading the table back *)

(** X14.  PING and GET_STATE are read-only, whatever data they carry:
    the daemon, its log included, is unchanged.  The GET_STATE snapshot is
    complete: it has an entry for exactly the tracked pids, each with its
    taint level and sandbox flag, and [count] is the number of entries of
    the table. *)
Theorem get_state_snapshot data d :
  handleCommand (mk_command "PING" data) d
  = (mk_response true "" (Some (DataString "pong")), d) /\
  exists processes,
    handleCommand (mk_command "GET_STATE" data) d
    = (mk_response true ""
         (Some (DataState processes
                  (Z.of_nat (size (ProcessMap (maps d)))))), d) /\
    forall pid,
      processes !! pid
      = (fun info => mk_process_state (pi_taint_level info)
                                      (pi_is_sandboxed info))
          <$> (ProcessMap (maps d) !! pid).
Proof.
  split; [reflexivity|].
  change (handleCommand (mk_command "GET_STATE" data) d)
    with (loader.cmdGetState d).
  unfold loader.cmdGetState. eexists. split.
  - rewrite map_size_fmap. reflexivity.
  - intros pid. apply lookup_fmap.
Qed.

(** ** Registration *)

(** X15.  REGISTER_AGENT resets taint: on a pid that is already tracked,
    at whatever taint level, it succeeds and replaces the entry by one at
    CLEAN with the sandbox flag cleared, and the pre-execution gate then
    allows that pid. *)
Theorem register_agent_resets_taint f comm d old :
  ProcessMap (maps d) !! uint32 f = Some old ->
  fst (handleCommand (REGISTER_AGENT f comm) d) = success /\
  (exists info,
     ProcessMap (maps (snd (handleCommand (REGISTER_AGENT f comm) d)))
       !! uint32 f = Some info /\
     pi_taint_level info = TaintClean /\
     pi_is_sandboxed info = 0) /\
  (forall ctx cfgs rb,
     current_pid ctx = uint32 f ->
     (forall c, cfgs !! 0 = Some c -> config_u32 c) ->
     telos_check_exec ctx
       (ProcessMap (maps (snd (handleCommand (REGISTER_AGENT f comm) d))))
       cfgs rb = (ALLOW, rb)).
Proof.
  intros Hold.
  rewrite (handle_REGISTER_AGENT overflow error_text).
  rewrite Put_room by (left; rewrite Hold; eexists; reflexivity).
  cbn [fst snd maps ProcessMap log_line set_ProcessMap].
  split; [reflexivity|]. split.
  - eexists. split; [apply lookup_insert_eq|]. split; reflexivity.
  - intros ctx cfgs rb Hpid Hcfg.
    eapply telos_check_exec_clean_entry;
      [rewrite Hpid; apply lookup_insert_eq | reflexivity | exact Hcfg].
Qed.

(** X16.  The comm stored by a successful REGISTER_AGENT is always 16
    bytes: the first 16 bytes of the given name, padded with NUL when the
    name is shorter, all NUL when the name is missing or not a string.  A
    name of 16 bytes or more is stored without a terminating NUL. *)
Theorem register_agent_comm data d f :
  as_float64 (data !! "pid") = Some f ->
  Success (fst (cmdRegisterAgent data d)) = true ->
  exists info,
    ProcessMap (maps (snd (cmdRegisterAgent data d))) !! uint32 f = Some info /\
    pi_comm info
    = take 16 (String.list_byte_of_string
                 (default "" (as_string (data !! "comm")))
               ++ replicate 16 x00) /\
    length (pi_comm info) = 16%nat.
Proof.
  intros Hpid. unfold loader.cmdRegisterAgent. rewrite Hpid. cbn zeta.
  destruct (Put _ _ _ _) as [err|m'] eqn:Hput; [discriminate|].
  intros _. apply Put_inr in Hput. subst m'.
  cbn [fst snd maps ProcessMap log_line set_ProcessMap].
  eexists. split; [apply lookup_insert_eq|]. cbn [pi_comm].
  assert (Hcomm :
    (if String.eqb (default "" (as_string (data !! "comm"))) ""
     then comm_zero
     else copy comm_zero
            (String.list_byte_of_string
               (default "" (as_string (data !! "comm")))))
    = take 16 (String.list_byte_of_string
                 (default "" (as_string (data !! "comm")))
               ++ replicate 16 x00)).
  { destruct (String.eqb_spec (default "" (as_string (data !! "comm"))) "")
      as [->|_]; [reflexivity|apply copy_comm_zero]. }
  rewrite Hcomm. split; [reflexivity|].
  rewrite length_take, length_app, length_replicate. lia.
Qed.

(** ** A table at capacity *)

(** X17.  On a table that holds 4096 entries, UPDATE_TAINT and
    REGISTER_AGENT still succeed for a pid that is tracked, and are
    refused for an untracked pid with the table-full error and no change
    to the daemon. *)
Theorem full_table_updates f g comm d :
  bpf_lsm.process_map_max_entries <= Z.of_nat (size (ProcessMap (maps d))) ->
  (is_Some (ProcessMap (maps d) !! uint32 f) ->
   fst (handleCommand (UPDATE_TAINT f g) d) = success /\
   fst (handleCommand (REGISTER_AGENT f comm) d) = success) /\
  (ProcessMap (maps d) !! uint32 f = None ->
   handleCommand (UPDATE_TAINT f g) d = (failure (error_text ErrMapFull), d) /\
   handleCommand (REGISTER_AGENT f comm) d
   = (failure (error_text ErrMapFull), d)).
Proof.
  intros Hfull.
  rewrite (handle_UPDATE_TAINT overflow error_text).
  rewrite (handle_REGISTER_AGENT overflow error_text).
  split.
  - intros Hsome. rewrite !Put_room by (left; exact Hsome).
    split; reflexivity.
  - intros Hnone. rewrite !Put_full by assumption. split; reflexivity.
Qed.

(** X18.  CLEAR_TAINT frees a slot: once a tracked pid has been cleared
    from a table within its capacity, the next UPDATE_TAINT succeeds for
    any pid. *)
Theorem clear_taint_frees_slot f f' g d :
  Z.of_nat (size (ProcessMap (maps d))) <= bpf_lsm.process_map_max_entries ->
  is_Some (ProcessMap (maps d) !! uint32 f') ->
  fst (handleCommand (UPDATE_TAINT f g)
         (snd (handleCommand (CLEAR_TAINT f') d))) = success.
Proof.
  intros Hsize Hsome.
  rewrite (handle_CLEAR_TAINT overflow error_text). unfold Delete.
  pose proof (map_size_delete_Some (uint32 f') _ Hsome) as Hdel.
  pose proof (map_size_ne_0_lookup_2 _ _ Hsome) as Hne.
  destruct Hsome as [old Hold]. rewrite Hold. cbn [snd].
  rewrite (handle_UPDATE_TAINT overflow error_text).
  cbn [maps ProcessMap log_line set_ProcessMap].
  rewrite Put_room; [reflexivity|]. right. rewrite Hdel.
  eapply Z.lt_le_trans; [|exact Hsize].
  apply Nat2Z.inj_lt, Nat.lt_pred_l. exact Hne.
Qed.

(** ** From a command to the next verdict *)

Lemma verdict_deny_iff eff threshold (enforcing : bool) (rb rb' : list event_t) :
  fst (if eff >? threshold
       then (if enforcing then DENY else ALLOW, rb')
       else (ALLOW, rb)) = DENY <->
  eff > threshold /\ enforcing = true.
Proof.
  destruct (eff >? threshold) eqn:E; cbn [fst].
  - apply Z.gtb_lt in E. destruct enforcing; split.
    + intros _. split; [lia|reflexivity].
    + intros _. reflexivity.
    + intros H. symmetry in H. apply DENY_not_ALLOW in H. contradiction.
    + intros [_ H]. discriminate H.
  - assert (Hle : eff <= threshold).
    { destruct (Z.gtb_spec eff threshold); [discriminate|lia]. }
    split.
    + intros H. symmetry in H. apply DENY_not_ALLOW in H. contradiction.
    + intros [H _]. lia.
Qed.

(** X19.  A taint written by UPDATE_TAINT decides the next exec of that
    pid: after a successful UPDATE_TAINT(pid, level) the pre-execution
    gate denies pid exactly when the level exceeds the exec threshold of
    the daemon's Config and enforcement is on, whatever the parent's
    taint. *)
Theorem update_taint_then_exec f g d :
  is_Some (ProcessMap (maps d) !! uint32 f) \/
  Z.of_nat (size (ProcessMap (maps d))) < bpf_lsm.process_map_max_entries ->
  fst (handleCommand (UPDATE_TAINT f g) d) = success /\
  forall ctx rb,
    current_pid ctx = uint32 f ->
    (fst (telos_check_exec ctx
            (ProcessMap (maps (snd (handleCommand (UPDATE_TAINT f g) d))))
            (ConfigMap (maps (snd (handleCommand (UPDATE_TAINT f g) d)))) rb)
     = DENY <->
     uint32 g > spec_exec_threshold (ConfigMap (maps d)) /\
     spec_enforcing (ConfigMap (maps d)) = true).
Proof.
  intros Hroom.
  rewrite (handle_UPDATE_TAINT overflow error_text), (Put_room _ _ _ _ Hroom).
  cbn [fst snd maps ProcessMap ConfigMap log_line set_ProcessMap].
  split; [reflexivity|]. intros ctx rb Hpid.
  rewrite (telos_check_exec_unfold ctx _ _ rb (uint32 g)).
  - apply verdict_deny_iff.
  - apply (taint_direct ctx _ (mk_process_info (uint32 f) (uint32 g) 0 comm_zero)).
    rewrite Hpid. apply lookup_insert_eq.
Qed.

(** X25.  The taint level of UPDATE_TAINT is not range-checked, and the
    file-open gate takes every level from CRITICAL up as CRITICAL: after a
    successful UPDATE_TAINT(pid, level) with a 32-bit level of at least 4,
    the gate denies pid exactly the files whose name can be read and
    begins with "id_", provided enforcement is on. *)
Theorem update_taint_then_open f level d :
  TAINT_CRITICAL <= level < 2 ^ 32 ->
  is_Some (ProcessMap (maps d) !! uint32 f) \/
  Z.of_nat (size (ProcessMap (maps d))) < bpf_lsm.process_map_max_entries ->
  fst (handleCommand (UPDATE_TAINT f (inject_Z level)) d) = success /\
  forall ctx file stale rb,
    current_pid ctx = uint32 f ->
    spec_enforcing (ConfigMap (maps d)) = true ->
    (fst (telos_check_file ctx file stale
            (ProcessMap
               (maps (snd (handleCommand (UPDATE_TAINT f (inject_Z level)) d))))
            (ConfigMap
               (maps (snd (handleCommand (UPDATE_TAINT f (inject_Z level)) d))))
            rb) = DENY <->
     exists name, file_name file = Some name /\
                  String.prefix "id_" name = true).
Proof.
  intros [Hcrit Hhi] Hroom.
  assert (Hlevel : uint32 (inject_Z level) = level).
  { apply (uint32_inject_Z overflow). unfold TAINT_CRITICAL in Hcrit. lia. }
  rewrite (handle_UPDATE_TAINT overflow error_text), (Put_room _ _ _ _ Hroom).
  cbn [fst snd maps ProcessMap ConfigMap log_line set_ProcessMap].
  split; [reflexivity|]. intros ctx file stale rb Hpid Henf.
  assert (Hself :
    <[uint32 f := mk_process_info (uint32 f) (uint32 (inject_Z level)) 0
                    comm_zero]> (ProcessMap (maps d)) !! current_pid ctx
    = Some (mk_process_info (uint32 f) level 0 comm_zero)).
  { rewrite Hpid, Hlevel. apply lookup_insert_eq. }
  destruct (file_name file) as [name|] eqn:Hname.
  - rewrite (telos_check_file_critical _ _ _ _ _ _ _ _ Hself Hcrit Hname).
    rewrite Henf. destruct (String.prefix "id_" name) eqn:Hpre; cbn [fst]; split.
    + intros _. exists name. split; [reflexivity|exact Hpre].
    + intros _. reflexivity.
    + intros H. symmetry in H. apply DENY_not_ALLOW in H. contradiction.
    + intros (name' & [= <-] & H). rewrite Hpre in H. discriminate H.
  - rewrite telos_check_file_no_name by exact Hname. cbn [fst]. split.
    + intros H. symmetry in H. apply DENY_not_ALLOW in H. contradiction.
    + intros (name' & H & _). discriminate H.
Qed.

(** X20.  A command changes the verdicts of the pid it names and of that
    pid's children only: for a caller that is neither the named pid nor a
    child of it, both gates decide after the command as they did before
    it. *)
Theorem command_leaves_other_processes cmd d ctx file stale cfgs rb :
  pid_of cmd <> Some (current_pid ctx) ->
  (forall t, current_task ctx = Some t -> pid_of cmd <> Some (parent_pid t)) ->
  telos_check_exec ctx (ProcessMap (maps (snd (handleCommand cmd d)))) cfgs rb
  = telos_check_exec ctx (ProcessMap (maps d)) cfgs rb /\
  telos_check_file ctx file stale
    (ProcessMap (maps (snd (handleCommand cmd d)))) cfgs rb
  = telos_check_file ctx file stale (ProcessMap (maps d)) cfgs rb.
Proof.
  intros Hself Hparent.
  pose proof (handleCommand_effect cmd d) as Heff.
  pose proof (command_effect_other_keys _ _ _ _ Heff Hself) as Hs.
  split.
  - unfold telos_check_exec. rewrite Hs.
    destruct (ProcessMap (maps d) !! current_pid ctx); [reflexivity|].
    destruct (current_task ctx) as [t|]; [|reflexivity].
    rewrite (command_effect_other_keys _ _ _ _ Heff (Hparent t eq_refl)).
    reflexivity.
  - unfold telos_check_file. rewrite Hs. reflexivity.
Qed.

(** ** Bootstrap, step by step *)

(** Find a line in a log that has been computed. *)
Ltac log_has_line :=
  vm_compute;
  repeat first [apply list_elem_of_here | apply list_elem_of_further].

(** One failing step of the bootstrap, when the goal relates [main] to the
    outcomes of the steps. *)
Ltac step_fails :=
  split;
  [ intros Hrun; vm_compute in Hrun; discriminate Hrun
  | intros (? & ? & ? & ? & ? & Hexec & ? & ?);
    first [congruence | destruct Hexec; congruence] ].

(** X21.  The daemon reaches its serving state exactly when it runs as
    root, the memory-lock limit, the pin directory, the collection spec
    and the collection succeed, the pre-execution gate is attached or
    absent from the collection, the Config is written, and the socket can
    be opened.  Pinning the process table and attaching the two other
    hooks have no say; a collection without the pre-execution gate starts
    without it. *)
Theorem main_running_iff env :
  fst (loader.main error_text env) = Running <->
  Geteuid env = 0 /\
  RemoveMemlock env = None /\
  MkdirAll env = None /\
  LoadCollectionSpec env = None /\
  NewCollection env = None /\
  (Programs env "telos_check_exec" = false \/
   AttachLSM env "telos_check_exec" = None) /\
  ConfigPut env = None /\
  Listen env = None.
Proof.
  unfold loader.main, loader.Start, loader.loadBPF, loader.initConfig,
    loader.startSocketServer.
  destruct (Geteuid env =? 0) eqn:Heuid; cbn [negb].
  2:{ split; [intros H; discriminate H|].
      intros (H & _). apply Z.eqb_eq in H. congruence. }
  apply Z.eqb_eq in Heuid.
  destruct (RemoveMemlock env) eqn:Hmem; [step_fails|].
  destruct (MkdirAll env) eqn:Hmkdir; [step_fails|].
  destruct (LoadCollectionSpec env) eqn:Hspec; [step_fails|].
  destruct (NewCollection env) eqn:Hcoll; [step_fails|].
  destruct (Pin env);
    (destruct (Programs env "telos_check_exec") eqn:Hprog;
     [destruct (AttachLSM env "telos_check_exec") eqn:Hattach; [step_fails|]|]);
    destruct (Programs env "telos_check_file");
    destruct (AttachLSM env "telos_check_file");
    destruct (Programs env "telos_task_alloc");
    destruct (AttachLSM env "telos_task_alloc");
    (destruct (ConfigPut env) eqn:Hconfig; [step_fails|]);
    (destruct (Listen env) eqn:Hlisten; [step_fails|]);
    (split; [intros _; repeat split; auto | intros _; reflexivity]).
Qed.

(** X22.  In the serving state the listener is open, the Config holds the
    defaults (exec threshold MEDIUM, open threshold HIGH, enforcement on),
    each link is set exactly when its program was present and attached,
    and a failed pin has left its warning in the log. *)
Theorem main_running_state env d :
  loader.main error_text env = (Running, d) ->
  listener d = true /\
  ConfigMap (maps d) !! 0 = Some (mk_config TaintMedium TaintHigh 1) /\
  CheckExec (links d) = attaches env "telos_check_exec" /\
  CheckFile (links d) = attaches env "telos_check_file" /\
  TaskAlloc (links d) = attaches env "telos_task_alloc" /\
  (forall err, Pin env = Some err ->
     "Warning: Failed to pin process_map: " +:+ err ∈ log d).
Proof.
  unfold loader.main, loader.Start, loader.loadBPF, loader.initConfig,
    loader.startSocketServer, attaches.
  destruct (Geteuid env =? 0); cbn [negb]; [|intros H; discriminate H].
  destruct (RemoveMemlock env);
    [intros H; vm_compute in H; discriminate H|].
  destruct (MkdirAll env);
    [intros H; vm_compute in H; discriminate H|].
  destruct (LoadCollectionSpec env);
    [intros H; vm_compute in H; discriminate H|].
  destruct (NewCollection env);
    [intros H; vm_compute in H; discriminate H|].
  destruct (Pin env);
    (destruct (Programs env "telos_check_exec");
     [destruct (AttachLSM env "telos_check_exec");
        [intros H; vm_compute in H; discriminate H|]|]);
    destruct (Programs env "telos_check_file");
    destruct (AttachLSM env "telos_check_file");
    destruct (Programs env "telos_task_alloc");
    destruct (AttachLSM env "telos_task_alloc");
    (destruct (ConfigPut env); [intros H; vm_compute in H; discriminate H|]);
    (destruct (Listen env); [intros H; vm_compute in H; discriminate H|]);
    (intros H; injection H as <-;
     repeat (split; [reflexivity|]);
     intros err Herr; try discriminate Herr; injection Herr as ->;
     log_has_line).
Qed.

(** X23.  The command socket is open exactly when startup succeeded:
    whichever step ends [main] with a fatal error, the listener has not
    been started. *)
Theorem listener_open_iff_running env :
  listener (snd (loader.main error_text env)) = true <->
  fst (loader.main error_text env) = Running.
Proof.
  unfold loader.main, loader.Start, loader.loadBPF, loader.initConfig,
    loader.startSocketServer.
  destruct (Geteuid env =? 0); cbn [negb];
    [|split; intros H; discriminate H].
  destruct (RemoveMemlock env);
    [vm_compute; split; intros H; discriminate H|].
  destruct (MkdirAll env);
    [vm_compute; split; intros H; discriminate H|].
  destruct (LoadCollectionSpec env);
    [vm_compute; split; intros H; discriminate H|].
  destruct (NewCollection env);
    [vm_compute; split; intros H; discriminate H|].
  destruct (Pin env);
    (destruct (Programs env "telos_check_exec");
     [destruct (AttachLSM env "telos_check_exec");
        [vm_compute; split; intros H; discriminate H|]|]);
    destruct (Programs env "telos_check_file");
    destruct (AttachLSM env "telos_check_file");
    destruct (Programs env "telos_task_alloc");
    destruct (AttachLSM env "telos_task_alloc");
    (destruct (ConfigPut env); [vm_compute; split; intros H; discriminate H|]);
    (destruct (Listen env); [vm_compute; split; intros H; discriminate H|]);
    (split; intros _; reflexivity).
Qed.

(** The Config of a daemon that serves is the one [initConfig] writes. *)
Lemma main_running_config env d :
  loader.main error_text env = (Running, d) ->
  ConfigMap (maps d) !! 0 = Some (mk_config TaintMedium TaintHigh 1).
Proof.
  unfold loader.main, loader.Start, loader.loadBPF, loader.initConfig,
    loader.startSocketServer.
  destruct (Geteuid env =? 0); cbn [negb]; [|intros H; discriminate H].
  destruct (RemoveMemlock env);
    [intros H; vm_compute in H; discriminate H|].
  destruct (MkdirAll env);
    [intros H; vm_compute in H; discriminate H|].
  destruct (LoadCollectionSpec env);
    [intros H; vm_compute in H; discriminate H|].
  destruct (NewCollection env);
    [intros H; vm_compute in H; discriminate H|].
  destruct (Pin env);
    (destruct (Programs env "telos_check_exec");
     [destruct (AttachLSM env "telos_check_exec");
        [intros H; vm_compute in H; discriminate H|]|]);
    destruct (Programs env "telos_check_file");
    destruct (AttachLSM env "telos_check_file");
    destruct (Programs env "telos_task_alloc");
    destruct (AttachLSM env "telos_task_alloc");
    (destruct (ConfigPut env); [intros H; vm_compute in H; discriminate H|]);
    (destruct (Listen env); [intros H; vm_compute in H; discriminate H|]);
    (intros H; injection H as <-; reflexivity).
Qed.

(** X24.  Once the daemon serves, the Config that [initConfig] has written
    makes the pre-execution gate block HIGH and above: the gate denies
    exactly the callers whose effective taint is at least HIGH. *)
Theorem default_config_blocks_high env d ctx m rb eff :
  loader.main error_text env = (Running, d) ->
  spec_effective_taint ctx m eff ->
  (fst (telos_check_exec ctx m (ConfigMap (maps d)) rb) = DENY
   <-> TAINT_HIGH <= eff).
Proof.
  intros Hrun Heff. pose proof (main_running_config env d Hrun) as Hconfig.
  rewrite (telos_check_exec_unfold _ _ _ _ _ Heff).
  rewrite verdict_deny_iff.
  unfold spec_exec_threshold, spec_enforcing. rewrite Hconfig.
  cbn [max_taint_for_exec enabled]. unfold TaintMedium, TAINT_HIGH.
  split.
  - intros [H _]. lia.
  - intros H. split; [lia|reflexivity].
Qed.

End DaemonExtras.

(* ===================================================================== *)
(** * The further properties on sample inputs *)
(* ===================================================================== *)

Lemma sample_effective_taint taint :
  spec_effective_taint (task_ctx 100 1) (tracked 100 taint) taint.
Proof.
  apply (taint_direct (task_ctx 100 1) (tracked 100 taint)
           (mk_process_info 100 taint 0 comm_zero)).
  vm_compute. reflexivity.
Qed.

(** Pid 100 at HIGH under the default thresholds: denied and logged. *)
Lemma telos_check_exec_denies_iff_witness :
  fst (telos_check_exec (task_ctx 100 1) (tracked 100 TAINT_HIGH)
         (config_of 2 3 1) []) = DENY /\
  snd (telos_check_exec (task_ctx 100 1) (tracked 100 TAINT_HIGH)
         (config_of 2 3 1) []) <> [].
Proof.
  destruct (telos_check_exec_denies_iff (task_ctx 100 1)
              (tracked 100 TAINT_HIGH) (config_of 2 3 1) [] TAINT_HIGH
              (sample_effective_taint TAINT_HIGH)) as [[_ Hdeny] [_ Hlog]].
  split.
  - apply Hdeny. split; vm_compute; reflexivity.
  - apply Hlog. split; [vm_compute; reflexivity | vm_compute; discriminate].
Defined.

(** Task 100, child of 60, grandchild of the CRITICAL pid 50: the gate
    decides as on an empty table. *)
Lemma telos_check_exec_single_hop_witness :
  telos_check_exec (task_ctx 100 60) (tracked 50 TAINT_CRITICAL)
    (config_of 2 3 1) []
  = telos_check_exec (task_ctx 100 60) ∅ (config_of 2 3 1) [].
Proof.
  apply telos_check_exec_single_hop.
  - vm_compute. reflexivity.
  - intros t Ht. injection Ht as <-. vm_compute. reflexivity.
Defined.

(** Denied at HIGH, hence denied at CRITICAL. *)
Lemma telos_check_exec_monotone_witness :
  fst (telos_check_exec (task_ctx 100 1) (tracked 100 TAINT_CRITICAL)
         (config_of 2 3 1) []) = DENY.
Proof.
  apply (telos_check_exec_monotone (task_ctx 100 1)
           (tracked 100 TAINT_HIGH) (tracked 100 TAINT_CRITICAL)
           (config_of 2 3 1) [] [] TAINT_HIGH TAINT_CRITICAL
           (sample_effective_taint TAINT_HIGH)
           (sample_effective_taint TAINT_CRITICAL)).
  - vm_compute. discriminate.
  - vm_compute. reflexivity.
Defined.

(** With [enabled = 0] a CRITICAL pid may exec and may open "id_rsa". *)
Lemma audit_mode_never_denies_witness :
  fst (telos_check_exec (task_ctx 100 1) (tracked 100 TAINT_CRITICAL)
         (config_of 2 3 0) []) = ALLOW /\
  fst (telos_check_file (task_ctx 100 1) (named_file "id_rsa") (fun _ => x00)
         (tracked 100 TAINT_CRITICAL) (config_of 2 3 0) []) = ALLOW.
Proof.
  apply (audit_mode_never_denies (task_ctx 100 1) (named_file "id_rsa")
           (fun _ => x00) (tracked 100 TAINT_CRITICAL) (config_of 2 3 0) []
           (mk_config 2 3 0)); reflexivity.
Defined.

(** A file without a dentry, opened by a CRITICAL pid under enforcement. *)
Lemma telos_check_file_fails_open_witness :
  telos_check_file (task_ctx 100 1) (mk_file None) (fun _ => x00)
    (tracked 100 TAINT_CRITICAL) (config_of 2 3 1) []
  = (ALLOW, []).
Proof.
  apply telos_check_file_fails_open. left. reflexivity.
Defined.

(** The CRITICAL parent 1 does not matter to the file gate of pid 100. *)
Lemma telos_check_file_own_entry_only_witness :
  telos_check_file (task_ctx 100 1) (named_file "id_rsa") (fun _ => x00)
    (<[1 := mk_process_info 1 TAINT_CRITICAL 0 comm_zero]>
       (tracked 100 TAINT_LOW)) (config_of 2 3 1) []
  = telos_check_file (task_ctx 100 1) (named_file "id_rsa") (fun _ => x00)
      (tracked 100 TAINT_LOW) (config_of 2 3 1) [].
Proof.
  apply telos_check_file_own_entry_only. vm_compute. reflexivity.
Defined.

(** A fresh daemon serving a registration and an update. *)
Lemma handleConnection_keeps_table_wf_witness :
  table_wf
    (ProcessMap
       (maps (snd (handleConnection sample_overflow sample_error_text
                     [inr (REGISTER_AGENT (inject_Z 100) "agent");
                      inr (UPDATE_TAINT (inject_Z 100) (inject_Z TaintHigh))]
                     NewTelosDaemon)))).
Proof.
  apply handleConnection_keeps_table_wf. split.
  - vm_compute. discriminate.
  - intros k info Hk. cbn [NewTelosDaemon maps ProcessMap] in Hk.
    rewrite lookup_empty in Hk. discriminate Hk.
Defined.

(** Pid 100, tracked at CRITICAL, is registered again and may exec. *)
Lemma register_agent_resets_taint_witness :
  telos_check_exec (task_ctx 100 1)
    (ProcessMap
       (maps (snd (handleCommand sample_overflow sample_error_text
                     (REGISTER_AGENT (inject_Z 100) "agent")
                     (set_ProcessMap NewTelosDaemon
                        (tracked 100 TAINT_CRITICAL))))))
    (config_of 2 3 1) []
  = (ALLOW, []).
Proof.
  destruct (register_agent_resets_taint sample_overflow sample_error_text
              (inject_Z 100) "agent"
              (set_ProcessMap NewTelosDaemon (tracked 100 TAINT_CRITICAL))
              (mk_process_info 100 TAINT_CRITICAL 0 comm_zero))
    as (_ & _ & Hexec).
  - vm_compute. reflexivity.
  - apply Hexec.
    + vm_compute. reflexivity.
    + intros c Hc. vm_compute in Hc. injection Hc as <-.
      unfold config_u32. cbn. lia.
Defined.

(** A name of 24 bytes is cut to its first 16. *)
Lemma register_agent_comm_witness :
  exists info,
    ProcessMap
      (maps (snd (cmdRegisterAgent sample_overflow sample_error_text
                    (Data (REGISTER_AGENT (inject_Z 100)
                             "a-very-long-process-name"))
                    NewTelosDaemon))) !! 100 = Some info /\
    pi_comm info = String.list_byte_of_string "a-very-long-proc" /\
    length (pi_comm info) = 16%nat.
Proof.
  destruct (register_agent_comm sample_overflow sample_error_text
              (Data (REGISTER_AGENT (inject_Z 100) "a-very-long-process-name"))
              NewTelosDaemon (inject_Z 100) eq_refl eq_refl)
    as (info & Hentry & Hcomm & Hlen).
  exists info. split; [exact Hentry|]. split; [|exact Hlen].
  rewrite Hcomm. vm_compute. reflexivity.
Defined.

(** The full table refuses pid 5000. *)
Lemma full_table_updates_witness :
  handleCommand sample_overflow sample_error_text
    (UPDATE_TAINT (inject_Z 5000) (inject_Z TaintHigh)) full_daemon
  = (failure "update: key too big for map: argument list too long",
     full_daemon).
Proof.
  destruct (full_table_updates sample_overflow sample_error_text
              (inject_Z 5000) (inject_Z TaintHigh) "agent" full_daemon)
    as [_ Hnew].
  - vm_compute. discriminate.
  - destruct Hnew as [Hupdate _]; [vm_compute; reflexivity|]. exact Hupdate.
Defined.

(** Clearing pid 5 from the full table makes room for pid 5000. *)
Lemma clear_taint_frees_slot_witness :
  fst (handleCommand sample_overflow sample_error_text
         (UPDATE_TAINT (inject_Z 5000) (inject_Z TaintHigh))
         (snd (handleCommand sample_overflow sample_error_text
                 (CLEAR_TAINT (inject_Z 5)) full_daemon)))
  = success.
Proof.
  apply clear_taint_frees_slot.
  - vm_compute. discriminate.
  - exists (mk_process_info 5 TaintLow 0 comm_zero). vm_compute. reflexivity.
Defined.

(** Pid 100 set to HIGH on a fresh daemon is denied its next exec. *)
Lemma update_taint_then_exec_witness :
  fst (telos_check_exec (task_ctx 100 1)
         (ProcessMap
            (maps (snd (handleCommand sample_overflow sample_error_text
                          (UPDATE_TAINT (inject_Z 100) (inject_Z TaintHigh))
                          NewTelosDaemon))))
         (ConfigMap
            (maps (snd (handleCommand sample_overflow sample_error_text
                          (UPDATE_TAINT (inject_Z 100) (inject_Z TaintHigh))
                          NewTelosDaemon)))) [])
  = DENY.
Proof.
  destruct (update_taint_then_exec sample_overflow sample_error_text
              (inject_Z 100) (inject_Z TaintHigh) NewTelosDaemon)
    as [_ Hexec].
  - right. vm_compute. reflexivity.
  - apply (Hexec (task_ctx 100 1) []).
    + vm_compute. reflexivity.
    + split; vm_compute; reflexivity.
Defined.

(** Marking pid 100 CRITICAL does not change what pid 200, child of 1,
    may do. *)
Lemma command_leaves_other_processes_witness :
  telos_check_exec (task_ctx 200 1)
    (ProcessMap
       (maps (snd (handleCommand sample_overflow sample_error_text
                     (UPDATE_TAINT (inject_Z 100) (inject_Z TaintCritical))
                     NewTelosDaemon))))
    (config_of 2 3 1) []
  = telos_check_exec (task_ctx 200 1) (ProcessMap (maps NewTelosDaemon))
      (config_of 2 3 1) [].
Proof.
  destruct (command_leaves_other_processes sample_overflow sample_error_text
              (UPDATE_TAINT (inject_Z 100) (inject_Z TaintCritical))
              NewTelosDaemon (task_ctx 200 1) (named_file "id_rsa")
              (fun _ => x00) (config_of 2 3 1) []) as [Hexec _].
  - vm_compute. discriminate.
  - intros t Ht. injection Ht as <-. vm_compute. discriminate.
  - exact Hexec.
Defined.

(** A start where every step succeeds. *)
Lemma main_running_state_witness :
  listener (snd (main sample_error_text (boot []))) = true /\
  ConfigMap (maps (snd (main sample_error_text (boot [])))) !! 0
  = Some (mk_config TaintMedium TaintHigh 1) /\
  links (snd (main sample_error_text (boot []))) = mk_links true true true.
Proof.
  destruct (main_running_state sample_error_text (boot [])
              (snd (main sample_error_text (boot []))))
    as (Hlisten & Hconfig & Hexec & Hfile & Htask & _).
  - vm_compute. reflexivity.
  - split; [exact Hlisten|]. split; [exact Hconfig|].
    destruct (links (snd (main sample_error_text (boot []))))
      as [e f t]. cbn [CheckExec CheckFile TaskAlloc] in *.
    rewrite Hexec, Hfile, Htask. vm_compute. reflexivity.
Defined.

(** On the daemon started with every step succeeding, pid 100 at HIGH is
    denied. *)
Lemma default_config_blocks_high_witness :
  fst (telos_check_exec (task_ctx 100 1) (tracked 100 TAINT_HIGH)
         (ConfigMap (maps started_daemon)) []) = DENY.
Proof.
  destruct (default_config_blocks_high sample_error_text (boot [])
              started_daemon (task_ctx 100 1) (tracked 100 TAINT_HIGH) []
              TAINT_HIGH) as [_ Hdeny].
  - vm_compute. reflexivity.
  - exact (sample_effective_taint TAINT_HIGH).
  - apply Hdeny. vm_compute. discriminate.
Defined.

(** Level 99 is stored as it is, and "id_ed25519" is then denied. *)
Lemma update_taint_then_open_witness :
  fst (telos_check_file (task_ctx 100 1) (named_file "id_ed25519")
         (fun _ => x00)
         (ProcessMap
            (maps (snd (handleCommand sample_overflow sample_error_text
                          (UPDATE_TAINT (inject_Z 100) (inject_Z 99))
                          NewTelosDaemon))))
         (ConfigMap
            (maps (snd (handleCommand sample_overflow sample_error_text
                          (UPDATE_TAINT (inject_Z 100) (inject_Z 99))
                          NewTelosDaemon)))) [])
  = DENY.
Proof.
  destruct (update_taint_then_open sample_overflow sample_error_text
              (inject_Z 100) 99 NewTelosDaemon) as [_ Hopen].
  - vm_compute. split; [discriminate|reflexivity].
  - right. vm_compute. reflexivity.
  - apply (Hopen (task_ctx 100 1) (named_file "id_ed25519") (fun _ => x00) []).
    + vm_compute. reflexivity.
    + vm_compute. reflexivity.
    + exists "id_ed25519"%string. split; reflexivity.
Defined.
